(** * discord/poll.py: polls, answers and answer tallies

    A shallow embedding of [discord/poll.py] and the properties of its
    data model, its (de)serialization and its two network-calling
    operations.

    Conventions of the embedding:
    - a Python class [C] is a module [C] with a record [C.t] of its
      attributes and one definition per method, under the method's name;
    - [int] is [Z]; [str] is [string]; [Optional[T]] is [option T];
    - the list objects held by a poll ([_answers], [_counts]) and the poll
      objects themselves live in a store and are referred to by location, so
      that copying, in-place mutation and object identity are visible;
    - a coroutine is a tree of awaited requests ([Coro]): what it raises
      before its first request is raised before any network traffic.

    Left out: [__str__], [__repr__] and [PollAnswerCount.poll], which no
    property below reads. *)

From Stdlib Require Import ZArith String List Lia.
From stdpp Require Import base option list gmap strings pretty.

Set Warnings "-register-all".

Local Open Scope string_scope.
Local Open Scope list_scope.
Local Open Scope Z_scope.

(** ** Python values and built-ins *)

(** The exceptions that the module raises or lets through. *)
Inductive Exception : Type :=
  | RuntimeError (msg : string)
  | ValueError (msg : string)
  | IndexError
  | NameError (name : string)
  | HTTPException.

(** [l[i]] on a Python list: a negative index counts from the end, an index
    out of range raises [IndexError]. *)
Definition list_getitem {A : Type} (l : list A) (i : Z) : Exception + A :=
  let n := Z.of_nat (length l) in
  let j := if i <? 0 then i + n else i in
  if (j <? 0) || (n <=? j) then inl IndexError
  else match l !! Z.to_nat j with
       | Some x => inr x
       | None => inl IndexError
       end.

(** [len(l)]. *)
Definition len {A : Type} (l : list A) : Z := Z.of_nat (length l).

(** Truth value of an [Optional[int]]: [None] and [0] are false. *)
Definition truthy_int (o : option Z) : bool :=
  match o with
  | Some z => negb (z =? 0)
  | None => false
  end.

(** Truth value of a [str]: the empty string is false. *)
Definition truthy_str (s : string) : bool :=
  match s with
  | EmptyString => false
  | String _ _ => true
  end.

(** Truth value of a list: the empty list is false. *)
Definition truthy_list {A : Type} (l : list A) : bool :=
  match l with
  | [] => false
  | _ :: _ => true
  end.

(** The dictionaries and lists that the serializers build.  A [dict] keeps
    its keys in insertion order. *)
Inductive PyValue : Type :=
  | PyBool (b : bool)
  | PyInt (z : Z)
  | PyStr (s : string)
  | PyList (l : list PyValue)
  | PyDict (d : list (string * PyValue)).

(** [d[k]] as a lookup that reports a missing key by [None]. *)
Fixpoint dict_get (k : string) (d : list (string * PyValue)) : option PyValue :=
  match d with
  | [] => None
  | (k', v) :: d' => if String.eqb k k' then Some v else dict_get k d'
  end.

(** [d[k] = v]: replaces the value of an existing key, appends a new key. *)
Fixpoint dict_setitem (k : string) (v : PyValue) (d : list (string * PyValue))
  : list (string * PyValue) :=
  match d with
  | [] => [(k, v)]
  | (k', v') :: d' =>
      if String.eqb k k' then (k, v) :: d' else (k', v') :: dict_setitem k v d'
  end.

(** [d[k1][k2] = v] for a [d[k1]] that is a dict; other shapes of [d[k1]]
    do not arise where it is used. *)
Definition dict_setitem_in (k1 k2 : string) (v : PyValue)
    (d : list (string * PyValue)) : list (string * PyValue) :=
  match dict_get k1 d with
  | Some (PyDict inner) => dict_setitem k1 (PyDict (dict_setitem k2 v inner)) d
  | _ => d
  end.

(** [v.get(k)] on a value that may or may not be a dict. *)
Definition value_get (k : string) (v : PyValue) : option PyValue :=
  match v with
  | PyDict d => dict_get k d
  | _ => None
  end.

(** An instant, in microseconds since the epoch, and [timedelta(hours=h)].
    Instants stay far from [datetime.max]: the [OverflowError] of an addition
    beyond the year 9999 is not modelled. *)
Definition datetime : Type := Z.

Definition timedelta_hours (h : Z) : Z := h * 3600 * 1000000.

(** [PollDuration = Literal[1, 4, 8, 24, 72, 168]]. *)
Definition PollDuration : list Z := [1; 4; 8; 24; 72; 168].

(** ** Collaborators outside [poll.py] *)

(** Modelled from the spec: the session handle ("state/session handle used
    only for the two network calls"); its [http] client issues the requests. *)
Record ConnectionState : Type := { session : Z }.

(** Modelled from the spec: [abc.Snowflake], the type of [after], is not part
    of this file; it is anything with an [id]. *)
Module Snowflake.
Record t : Type := mk { id : Z }.
End Snowflake.

(** Modelled from the spec: "a message/channel object supplying channelId,
    messageId"; of a channel the module reads the [id]. *)
Module Channel.
Record t : Type := mk { id : Z }.
End Channel.

(** Modelled from the spec: [message.Message] is not part of this file; a
    message supplies [id], [channel] and the [_state] it was created with. *)
Module Message.
Record t : Type := mk { id : Z; channel : Channel.t; _state : ConnectionState }.
End Message.

(** Modelled from the spec: the raw user and message records that the
    transport returns ([UserPayload], [MessagePayload]); the module passes
    them on unread. *)
Record UserPayload : Type := { user_id : Z; username : string }.
Record MessagePayload : Type := { message_id : Z }.

(** Modelled from the spec: [user.User], "a user-record constructor taking a
    session handle and a raw user payload". *)
Module User.
Record t : Type := mk { _state : ConnectionState; data : UserPayload }.
End User.

(** Modelled from the spec: [emoji.PartialEmoji] and [emoji.Emoji] are not
    part of this file; an emoji reference is [{ id: optional integer, name:
    string }], a custom emoji always has its id. *)
Module PartialEmoji.
Record t : Type := mk { name : string; id : option Z }.
End PartialEmoji.

Module Emoji.
Record t : Type := mk { name : string; id : Z }.
End Emoji.

(** Modelled from the spec: [enums.PollLayoutType] and [enums.try_enum] are
    not part of this file; the layout is "a closed set of known variants plus
    a fallback unrecognized(rawValue)", with [default = 1]. *)
Module PollLayoutType.
Inductive t : Type :=
  | default
  | unrecognized (raw : Z).

Definition value (l : t) : Z :=
  match l with
  | default => 1
  | unrecognized raw => raw
  end.
End PollLayoutType.

Definition try_enum (v : Z) : PollLayoutType.t :=
  if v =? 1 then PollLayoutType.default else PollLayoutType.unrecognized v.

(** Functions of other modules that [poll.py] calls and whose code is not
    in this file: the string conversions of the two emoji classes and
    [datetime.fromisoformat].  Every result below holds for all of them. *)
Class Collaborators : Type := {
  PartialEmoji_str : PartialEmoji.t -> string;
  Emoji_str : Emoji.t -> string;
  fromisoformat : string -> Exception + datetime;
}.

(** ** The wire payloads ([types/poll.py]) *)

(** Modelled from the spec: the inbound shapes of section 6,
    [{question:{text}, answers:[{answer_id, poll_media:{text,
    emoji?:{id?,name}}}], allow_multiselect?, expiry, layout_type?,
    results?:{is_finalized, answer_counts:[{id, me_voted, count}]}}].
    An optional or null key is [None]; an id is the integer it denotes. *)
Module PollEmojiPayload.
Record t : Type := mk { id : option Z; name : string }.
End PollEmojiPayload.

Module PollMediaPayload.
Record t : Type := mk { text : string; emoji : option PollEmojiPayload.t }.
End PollMediaPayload.

Module PollAnswerWithIDPayload.
Record t : Type := mk { answer_id : Z; poll_media : PollMediaPayload.t }.
End PollAnswerWithIDPayload.

Module PollAnswerCountPayload.
Record t : Type := mk { id : Z; me_voted : bool; count : Z }.
End PollAnswerCountPayload.

Module PollResultsPayload.
Record t : Type :=
  mk { is_finalized : bool; answer_counts : list PollAnswerCountPayload.t }.
End PollResultsPayload.

Module PollWithExpiryPayload.
Record t : Type := mk {
  question : PollMediaPayload.t;
  answers : list PollAnswerWithIDPayload.t;
  allow_multiselect : option bool;
  expiry : string;
  layout_type : option Z;
  results : option PollResultsPayload.t;
}.
End PollWithExpiryPayload.

(** Modelled from the spec: the voter list response, [{users:[UserPayload]}]. *)
Record VotersPayload : Type := { users : list UserPayload }.

(** ** Coroutines *)

(** The two requests of the transport, indexed by what they answer. *)
Inductive Request : Type -> Type :=
  | get_poll_answer_voters (http : ConnectionState)
      (channel_id message_id answer_id : Z) (after : option Z) (limit : Z)
      : Request VotersPayload
  | end_poll (http : ConnectionState) (channel_id message_id : Z)
      : Request MessagePayload.

(** A coroutine returns, raises, or awaits a request and goes on with what
    the transport gives back: the data, or the exception it raises. *)
Inductive Coro (A : Type) : Type :=
  | CRet (a : A)
  | CRaise (e : Exception)
  | CAwait {X : Type} (r : Request X) (k : Exception + X -> Coro A).

Arguments CRet {A} a.
Arguments CRaise {A} e.
Arguments CAwait {A X} r k.

(** [data = await r; k data]: an exception of the transport propagates. *)
Definition await {A X : Type} (r : Request X) (k : X -> Coro A) : Coro A :=
  CAwait r (fun res => match res with
                       | inl e => CRaise e
                       | inr data => k data
                       end).

(** The number of requests a coroutine has issued when it stops, [transport]
    answering them. *)
Fixpoint requests_issued {A : Type}
    (transport : forall X, Request X -> Exception + X) (c : Coro A) : nat :=
  match c with
  | CRet _ => 0
  | CRaise _ => 0
  | CAwait r k => S (requests_issued transport (k (transport _ r)))
  end.

(** The coroutine fails with [e] before it issues any request. *)
Definition fails_before_request {A : Type} (c : Coro A) (e : Exception) : Prop :=
  c = CRaise e.

(** ** class PollMedia *)

Module PollMedia.
Record t : Type := mk { text : string; emoji : option PollEmojiPayload.t }.
End PollMedia.

(** ** class PollAnswerCount *)

Module PollAnswerCount.
Record t : Type := mk {
  _state : ConnectionState;
  _message : Message.t;
  id : Z;
  me_voted : bool;
  count : Z;
}.

Definition __init__ (state : ConnectionState) (message : Message.t)
    (data : PollAnswerCountPayload.t) : t :=
  {| _state := state;
     _message := message;
     id := PollAnswerCountPayload.id data;
     me_voted := PollAnswerCountPayload.me_voted data;
     count := PollAnswerCountPayload.count data |}.

Definition original (self : t) : Message.t := _message self.

Definition users (self : t) (after : option Snowflake.t) (limit : Z)
  : Coro (list User.t) :=
  await
    (get_poll_answer_voters (_state self)
       (Channel.id (Message.channel (_message self)))
       (Message.id (_message self))
       (id self)
       (Snowflake.id <$> after)
       limit)
    (fun data => CRet (map (User.mk (_state self)) (users data))).
End PollAnswerCount.

(** ** class PollAnswer *)

(** The [emoji] argument of [from_params] and [add_answer]. *)
Inductive EmojiArg : Type :=
  | OfEmoji (e : Emoji.t)
  | OfPartialEmoji (e : PartialEmoji.t)
  | OfStr (s : string).

Module PollAnswer.
Section WithCollaborators.
Context `{Collaborators}.

Record t : Type := mk {
  media : PollMedia.t;
  id : Z;
  _state : option ConnectionState;
  _message : option Message.t;
}.

Definition __init__ (data : PollAnswerWithIDPayload.t)
    (message : option Message.t) : t :=
  let media := PollAnswerWithIDPayload.poll_media data in
  {| _state := Message._state <$> message;
     _message := message;
     media := PollMedia.mk (PollMediaPayload.text media)
                           (PollMediaPayload.emoji media);
     id := PollAnswerWithIDPayload.answer_id data |}.

(** [if emoji:] an emoji object is true, a string is true when not empty. *)
Definition truthy_emoji (emoji : option EmojiArg) : bool :=
  match emoji with
  | None => false
  | Some (OfStr s) => truthy_str s
  | Some _ => true
  end.

Definition str_emoji (emoji : EmojiArg) : string :=
  match emoji with
  | OfEmoji e => Emoji_str e
  | OfPartialEmoji e => PartialEmoji_str e
  | OfStr s => s
  end.

Definition id_emoji (emoji : EmojiArg) : option Z :=
  match emoji with
  | OfEmoji e => Some (Emoji.id e)
  | OfPartialEmoji e => PartialEmoji.id e
  | OfStr _ => None
  end.

Definition from_params (id : Z) (text : string) (emoji : option EmojiArg)
    (message : option Message.t) : t :=
  let poll_media := PollMediaPayload.mk text None in
  let poll_media :=
    match emoji with
    | Some e =>
        if truthy_emoji emoji
        then PollMediaPayload.mk text
               (Some (PollEmojiPayload.mk (id_emoji e) (str_emoji e)))
        else poll_media
    | None => poll_media
    end in
  let payload := PollAnswerWithIDPayload.mk id poll_media in
  __init__ payload message.

Definition text (self : t) : string := PollMedia.text (media self).

(** The emoji dict of [media] has a name, so it is true whenever it is
    there; its id is [int(id)] when the id is not [None]. *)
Definition emoji (self : t) : option PartialEmoji.t :=
  match PollMedia.emoji (media self) with
  | Some e =>
      let emoji_id := PollEmojiPayload.id e in
      Some (PartialEmoji.mk (PollEmojiPayload.name e) emoji_id)
  | None => None
  end.

Definition _to_dict (self : t) : PyValue :=
  let data := [] in
  let data := dict_setitem "text" (PyStr (text self)) data in
  let data :=
    match emoji self with
    | Some e =>
        let data :=
          dict_setitem "emoji" (PyDict [("name", PyStr (PartialEmoji_str e))]) data in
        if truthy_int (PartialEmoji.id e)
        then match PartialEmoji.id e with
             | Some i => dict_setitem_in "emoji" "id" (PyInt i) data
             | None => data
             end
        else data
    | None => data
    end in
  PyDict data.

Definition users (self : t) (after : option Snowflake.t) (limit : Z)
  : Coro (list User.t) :=
  match _message self, _state self with
  | Some message, Some state =>
      if (limit <? 0) || (100 <? limit)
      then CRaise (ValueError "limit can only be within 0 and 100")
      else
        await
          (get_poll_answer_voters state
             (Channel.id (Message.channel message))
             (Message.id message)
             (id self)
             (Snowflake.id <$> after)
             limit)
          (fun data => CRet (map (User.mk state) (users data)))
  | _, _ =>
      CRaise (RuntimeError "You cannot fetch users in a non-message-attached poll")
  end.

End WithCollaborators.
End PollAnswer.

(** ** Objects in the store *)

(** Locations of list and poll objects. *)
Abbreviation loc := positive (only parsing).

(** Mutations a caller can apply to a list object it holds. *)
Inductive ListOp (A : Type) : Type :=
  | Append (x : A)
  | Extend (xs : list A)
  | SetItem (i : Z) (x : A)
  | DelItem (i : Z)
  | Pop
  | Clear
  | Reverse.

Arguments Append {A} x.
Arguments Extend {A} xs.
Arguments SetItem {A} i x.
Arguments DelItem {A} i.
Arguments Pop {A}.
Arguments Clear {A}.
Arguments Reverse {A}.

(** The position that index [i] denotes in a list of length [n], if any. *)
Definition list_index (n : nat) (i : Z) : option nat :=
  let j := if i <? 0 then i + Z.of_nat n else i in
  if (j <? 0) || (Z.of_nat n <=? j) then None else Some (Z.to_nat j).

Definition list_apply {A : Type} (op : ListOp A) (l : list A) : Exception + list A :=
  match op with
  | Append x => inr (l ++ [x])
  | Extend xs => inr (l ++ xs)
  | SetItem i x =>
      match list_index (length l) i with
      | Some j => inr (<[j := x]> l)
      | None => inl IndexError
      end
  | DelItem i =>
      match list_index (length l) i with
      | Some j => inr (delete j l)
      | None => inl IndexError
      end
  | Pop =>
      match l with
      | [] => inl IndexError
      | _ :: _ => inr (removelast l)
      end
  | Clear => inr []
  | Reverse => inr (rev l)
  end.

(** ** class Poll *)

Module Poll.

(** The attributes of a poll object.  [_answers] and [_counts] hold
    references to list objects.  ([__slots__] also names [_results], which
    no method reads or writes.) *)
Record t : Type := mk {
  question : string;
  _answers : loc;
  duration : Z;
  multiselect : bool;
  layout_type : PollLayoutType.t;
  _message : option Message.t;
  _state : option ConnectionState;
  _finalized : bool;
  _counts : option loc;
  _expiry : datetime;
}.

Definition set__answers (v : loc) (p : t) : t :=
  mk (question p) v (duration p) (multiselect p) (layout_type p)
     (_message p) (_state p) (_finalized p) (_counts p) (_expiry p).

Definition set__message (v : option Message.t) (p : t) : t :=
  mk (question p) (_answers p) (duration p) (multiselect p) (layout_type p)
     v (_state p) (_finalized p) (_counts p) (_expiry p).

Definition set__state (v : option ConnectionState) (p : t) : t :=
  mk (question p) (_answers p) (duration p) (multiselect p) (layout_type p)
     (_message p) v (_finalized p) (_counts p) (_expiry p).

Definition set__finalized (v : bool) (p : t) : t :=
  mk (question p) (_answers p) (duration p) (multiselect p) (layout_type p)
     (_message p) (_state p) v (_counts p) (_expiry p).

Definition set__counts (v : option loc) (p : t) : t :=
  mk (question p) (_answers p) (duration p) (multiselect p) (layout_type p)
     (_message p) (_state p) (_finalized p) v (_expiry p).

Definition set__expiry (v : datetime) (p : t) : t :=
  mk (question p) (_answers p) (duration p) (multiselect p) (layout_type p)
     (_message p) (_state p) (_finalized p) (_counts p) v.

(** The store: the list objects of answers, the list objects of tallies and
    the poll objects, each by location. *)
Record Store : Type := mkStore {
  answer_lists : gmap loc (list PollAnswer.t);
  count_lists : gmap loc (list PollAnswerCount.t);
  polls : gmap loc t;
}.

Definition empty_store : Store := mkStore ∅ ∅ ∅.

(** A computation returns a value or raises, in both cases with the store it
    leaves; [Stuck] is a read through a reference to no object, which no
    Python program performs. *)
Inductive Outcome (A : Type) : Type :=
  | Return (a : A) (s : Store)
  | Raise (e : Exception) (s : Store)
  | Stuck.

Arguments Return {A} a s.
Arguments Raise {A} e s.
Arguments Stuck {A}.

Definition M (A : Type) : Type := Store -> Outcome A.

Definition ret {A : Type} (a : A) : M A := fun s => Return a s.

Definition raise {A : Type} (e : Exception) : M A := fun s => Raise e s.

Definition bind {A B : Type} (m : M A) (f : A -> M B) : M B :=
  fun s =>
    match m s with
    | Return a s' => f a s'
    | Raise e s' => Raise e s'
    | Stuck => Stuck
    end.

Notation "x <- m ;; k" := (bind m (fun x => k))
  (at level 100, m at next level, right associativity).
Notation "m ;; k" := (bind m (fun _ => k))
  (at level 100, right associativity).

(** The store with the object at one location replaced. *)
Definition put_answer_list (l : loc) (xs : list PollAnswer.t) (s : Store) : Store :=
  mkStore (<[l := xs]> (answer_lists s)) (count_lists s) (polls s).

Definition put_count_list (l : loc) (cs : list PollAnswerCount.t) (s : Store) : Store :=
  mkStore (answer_lists s) (<[l := cs]> (count_lists s)) (polls s).

Definition put_poll (l : loc) (p : t) (s : Store) : Store :=
  mkStore (answer_lists s) (count_lists s) (<[l := p]> (polls s)).

(** A new object, at a location that holds none. *)
Definition new_answer_list (xs : list PollAnswer.t) : M loc :=
  fun s =>
    let l := fresh (dom (answer_lists s)) in
    Return l (put_answer_list l xs s).

Definition new_count_list (cs : list PollAnswerCount.t) : M loc :=
  fun s =>
    let l := fresh (dom (count_lists s)) in
    Return l (put_count_list l cs s).

Definition new_poll (p : t) : M loc :=
  fun s =>
    let l := fresh (dom (polls s)) in
    Return l (put_poll l p s).

(** The items of a list object. *)
Definition answer_list_at (l : loc) : M (list PollAnswer.t) :=
  fun s =>
    match answer_lists s !! l with
    | Some xs => Return xs s
    | None => Stuck
    end.

Definition count_list_at (l : loc) : M (list PollAnswerCount.t) :=
  fun s =>
    match count_lists s !! l with
    | Some cs => Return cs s
    | None => Stuck
    end.

(** In-place replacement of the items of a list object. *)
Definition answer_list_set (l : loc) (xs : list PollAnswer.t) : M unit :=
  fun s =>
    match answer_lists s !! l with
    | Some _ => Return tt (put_answer_list l xs s)
    | None => Stuck
    end.

Definition count_list_set (l : loc) (cs : list PollAnswerCount.t) : M unit :=
  fun s =>
    match count_lists s !! l with
    | Some _ => Return tt (put_count_list l cs s)
    | None => Stuck
    end.

(** Reading the attributes of a poll object, and assigning one of them. *)
Definition getattr (self : loc) : M t :=
  fun s =>
    match polls s !! self with
    | Some p => Return p s
    | None => Stuck
    end.

Definition setattr (self : loc) (assign : t -> t) : M unit :=
  fun s =>
    match polls s !! self with
    | Some p => Return tt (put_poll self (assign p) s)
    | None => Stuck
    end.

(** A caller mutating a list object it holds. *)
Definition mutate_answers (l : loc) (op : ListOp PollAnswer.t) : M unit :=
  xs <- answer_list_at l ;;
  match list_apply op xs with
  | inr ys => answer_list_set l ys
  | inl e => raise e
  end.

Definition mutate_counts (l : loc) (op : ListOp PollAnswerCount.t) : M unit :=
  cs <- count_list_at l ;;
  match list_apply op cs with
  | inr ds => count_list_set l ds
  | inl e => raise e
  end.

(** The store a computation leaves ([s] itself if it is stuck). *)
Definition store_after {A : Type} (m : M A) (s : Store) : Store :=
  match m s with
  | Return _ s' => s'
  | Raise _ s' => s'
  | Stuck => s
  end.

(** A caller applying mutations one after the other, going on after one
    that raises. *)
Fixpoint mutate_answers_all (l : loc) (ops : list (ListOp PollAnswer.t))
    (s : Store) : Store :=
  match ops with
  | [] => s
  | op :: ops' => mutate_answers_all l ops' (store_after (mutate_answers l op) s)
  end.

Fixpoint mutate_counts_all (l : loc) (ops : list (ListOp PollAnswerCount.t))
    (s : Store) : Store :=
  match ops with
  | [] => s
  | op :: ops' => mutate_counts_all l ops' (store_after (mutate_counts l op) s)
  end.

Section WithCollaborators.
Context `{Collaborators}.

(** [now] is what [utils.utcnow()] returns during the call. *)
Definition __init__ (question : string) (duration : Z) (multiselect : bool)
    (layout_type : PollLayoutType.t) (now : datetime) : M loc :=
  answers <- new_answer_list [] ;;
  new_poll (mk question answers duration multiselect layout_type
               None None false None (now + timedelta_hours duration)).

Definition answers (self : loc) : M loc :=
  p <- getattr self ;;
  xs <- answer_list_at (_answers p) ;;
  new_answer_list xs.

Definition expiry (self : loc) : M datetime :=
  p <- getattr self ;;
  ret (_expiry p).

Definition answer_counts (self : loc) : M (option loc) :=
  p <- getattr self ;;
  match _counts p with
  | Some counts =>
      cs <- count_list_at counts ;;
      if truthy_list cs
      then (copy <- new_count_list cs ;; ret (Some copy))
      else ret None
  | None => ret None
  end.

Definition is_finalized (self : loc) : M bool :=
  p <- getattr self ;;
  ret (_finalized p).

Definition _from_data (data : PollWithExpiryPayload.t) (message : Message.t)
    (state : ConnectionState) (now : datetime) : M loc :=
  answers <-
    new_answer_list
      (map (fun answer => PollAnswer.__init__ answer (Some message))
           (PollWithExpiryPayload.answers data)) ;;
  let multiselect := default false (PollWithExpiryPayload.allow_multiselect data) in
  let expiry := PollWithExpiryPayload.expiry data in
  let layout_type := try_enum (default 1 (PollWithExpiryPayload.layout_type data)) in
  let question_data := PollWithExpiryPayload.question data in
  let question := PollMediaPayload.text question_data in
  self <- __init__ question 1 multiselect layout_type now ;;
  setattr self (set__answers answers) ;;
  setattr self (set__message (Some message)) ;;
  setattr self (set__state (Some state)) ;;
  match fromisoformat expiry with
  | inl e => raise e
  | inr instant =>
      setattr self (set__expiry instant) ;;
      match PollWithExpiryPayload.results data with
      | Some results =>
          setattr self (set__finalized (PollResultsPayload.is_finalized results)) ;;
          counts <-
            new_count_list
              (map (PollAnswerCount.__init__ state message)
                   (PollResultsPayload.answer_counts results)) ;;
          setattr self (set__counts (Some counts)) ;;
          ret self
      | None => ret self
      end
  end.

Definition _to_dict (self : loc) : M PyValue :=
  p <- getattr self ;;
  let data := [] in
  let data := dict_setitem "allow_multiselect" (PyBool (multiselect p)) data in
  let data := dict_setitem "question" (PyDict [("text", PyStr (question p))]) data in
  let data := dict_setitem "duration" (PyInt (duration p)) data in
  let data :=
    dict_setitem "layout_type" (PyInt (PollLayoutType.value (layout_type p))) data in
  copy <- answers self ;;
  xs <- answer_list_at copy ;;
  let data :=
    dict_setitem "answers"
      (PyList (map (fun answer => PyDict [("poll_media", PollAnswer._to_dict answer)]) xs))
      data in
  ret (PyDict data).

Definition add_answer (self : loc) (text : string) (emoji : option EmojiArg)
  : M loc :=
  copy <- answers self ;;
  xs <- answer_list_at copy ;;
  p <- getattr self ;;
  let answer := PollAnswer.from_params (len xs + 1) text emoji (_message p) in
  ys <- answer_list_at (_answers p) ;;
  answer_list_set (_answers p) (ys ++ [answer]) ;;
  ret self.

Definition get_answer (self : loc) (id : Z) : M (option PollAnswer.t) :=
  copy <- answers self ;;
  xs <- answer_list_at copy ;;
  if id >? len xs then ret None
  else
    copy <- answers self ;;
    xs <- answer_list_at copy ;;
    match list_getitem xs (id - 1) with
    | inr answer => ret (Some answer)
    | inl IndexError => ret None
    | inl e => raise e
    end.

(** [end] is a keyword here, hence the underscore.  The coroutine reads the
    attributes of the poll object when it starts; [None] stands for a
    reference to no object.  [poll.py] imports [Message] under
    [TYPE_CHECKING] only, so the name is not bound when the last line calls
    it: once the request has answered, the coroutine raises [NameError]. *)
Definition end_ (self : loc) (s : Store) : option (Coro Message.t) :=
  p ← polls s !! self;
  Some
    match _message p with
    | None =>
        CRaise (RuntimeError
          "This method can only be called when a message is present, try using this via Message.poll.end()")
    | Some message =>
        await
          (end_poll (Message._state message)
             (Channel.id (Message.channel message)) (Message.id message))
          (fun data => CRaise (NameError "Message"))
    end.

(** Chained calls [poll.add_answer(...).add_answer(...)...], each on the
    object the previous one returned. *)
Fixpoint add_answers (self : loc) (args : list (string * option EmojiArg))
  : M loc :=
  match args with
  | [] => ret self
  | (text, emoji) :: rest =>
      self' <- add_answer self text emoji ;;
      add_answers self' rest
  end.

(** The answers that chained calls with [args] append to a poll that has
    [n] answers and the back-reference [message]. *)
Fixpoint answers_added (n : Z) (message : option Message.t)
    (args : list (string * option EmojiArg)) : list PollAnswer.t :=
  match args with
  | [] => []
  | (text, emoji) :: rest =>
      PollAnswer.from_params (n + 1) text emoji message
        :: answers_added (n + 1) message rest
  end.

End WithCollaborators.

(** What a caller sees when it reads the list that [answers] returns: its
    items, or [None] if the call does not return. *)
Definition answers_items (self : loc) (s : Store) : option (list PollAnswer.t) :=
  match answers self s with
  | Return copy s' => answer_lists s' !! copy
  | _ => None
  end.

(** The same for [answer_counts]: [Some None] when it returns [None],
    [Some (Some cs)] when it returns a list of items [cs]. *)
Definition answer_counts_items (self : loc) (s : Store)
  : option (option (list PollAnswerCount.t)) :=
  match answer_counts self s with
  | Return (Some copy) s' => Some <$> count_lists s' !! copy
  | Return None _ => Some None
  | _ => None
  end.

(** The items of the list objects that the attributes of a poll refer to. *)
Definition backing_answers (p : t) (s : Store) : option (list PollAnswer.t) :=
  answer_lists s !! _answers p.

Definition backing_counts (p : t) (s : Store) : option (list PollAnswerCount.t) :=
  match _counts p with
  | Some counts => count_lists s !! counts
  | None => None
  end.

(** What [get_answer] comes to on a poll whose answers are [xs]: the range
    test, then the indexing with its [IndexError] caught. *)
Definition get_answer_result (xs : list PollAnswer.t) (id : Z) : option PollAnswer.t :=
  if id >? len xs then None
  else match list_getitem xs (id - 1) with
       | inr answer => Some answer
       | inl _ => None
       end.

(** Two stores that differ at most in the answer list at [l]. *)
Definition same_but_answers (l : loc) (s s' : Store) : Prop :=
  polls s' = polls s /\
  count_lists s' = count_lists s /\
  forall l', l' <> l -> answer_lists s' !! l' = answer_lists s !! l'.

(** Two stores that differ at most in the tally list at [l]. *)
Definition same_but_counts (l : loc) (s s' : Store) : Prop :=
  polls s' = polls s /\
  answer_lists s' = answer_lists s /\
  forall l', l' <> l -> count_lists s' !! l' = count_lists s !! l'.

End Poll.

(** ** Reading an outbound payload back *)

(** The emoji, the media and the list of answer media that an outbound
    payload carries, in the shapes of the inbound side. *)
Definition as_emoji (v : PyValue) : option PollEmojiPayload.t :=
  match value_get "name" v with
  | Some (PyStr name) =>
      Some (PollEmojiPayload.mk
              match value_get "id" v with
              | Some (PyInt i) => Some i
              | _ => None
              end
              name)
  | _ => None
  end.

Definition as_media (v : PyValue) : option PollMediaPayload.t :=
  match value_get "text" v with
  | Some (PyStr text) =>
      Some (PollMediaPayload.mk text (value_get "emoji" v ≫= as_emoji))
  | _ => None
  end.

Definition outbound_media (out : PyValue) : option (list PollMediaPayload.t) :=
  match value_get "answers" out with
  | Some (PyList outs) => mapM (fun o => value_get "poll_media" o ≫= as_media) outs
  | _ => None
  end.

(** The keys of the entries of the outbound [answers] list. *)
Definition dict_keys (v : PyValue) : list string :=
  match v with
  | PyDict d => map fst d
  | _ => []
  end.

Definition outbound_answer_keys (out : PyValue) : option (list (list string)) :=
  match value_get "answers" out with
  | Some (PyList outs) => Some (map dict_keys outs)
  | _ => None
  end.

(** The keys of the [poll_media] dict of each entry. *)
Definition outbound_media_keys (out : PyValue) : option (list (list string)) :=
  match value_get "answers" out with
  | Some (PyList outs) =>
      mapM (fun o => dict_keys <$> value_get "poll_media" o) outs
  | _ => None
  end.

Section RoundTrip.
Context `{Collaborators}.

(** What [PollAnswer._to_dict] sends for an emoji and a media received: the
    name is the string conversion of the emoji, the id is kept when true. *)
Definition emoji_sent (e : PollEmojiPayload.t) : PollEmojiPayload.t :=
  PollEmojiPayload.mk
    (if truthy_int (PollEmojiPayload.id e) then PollEmojiPayload.id e else None)
    (PartialEmoji_str (PartialEmoji.mk (PollEmojiPayload.name e) (PollEmojiPayload.id e))).

Definition media_sent (m : PollMediaPayload.t) : PollMediaPayload.t :=
  PollMediaPayload.mk (PollMediaPayload.text m) (emoji_sent <$> PollMediaPayload.emoji m).

(** The round trip as the specification words it: serializing the poll
    rebuilt from [data] gives back the question text, the multiselect flag
    and the text and emoji of every answer, in order. *)
Definition round_trip_preserves (data : PollWithExpiryPayload.t)
    (message : Message.t) (state : ConnectionState) (now : datetime)
    (s : Poll.Store) : Prop :=
  exists self s1 out s2,
    Poll._from_data data message state now s = Poll.Return self s1 /\
    Poll._to_dict self s1 = Poll.Return out s2 /\
    value_get "question" out =
      Some (PyDict [("text", PyStr (PollMediaPayload.text (PollWithExpiryPayload.question data)))]) /\
    value_get "allow_multiselect" out =
      Some (PyBool (default false (PollWithExpiryPayload.allow_multiselect data))) /\
    outbound_media out =
      Some (map PollAnswerWithIDPayload.poll_media (PollWithExpiryPayload.answers data)).

End RoundTrip.

(** ** Ground inputs *)

(** One choice of the collaborators, for the examples: an emoji converts to
    its name (section 4.1 of the specification serializes the name) and the
    one timestamp of the specification's example parses. *)
Definition sample_collaborators : Collaborators := {|
  PartialEmoji_str e := PartialEmoji.name e;
  Emoji_str e := Emoji.name e;
  fromisoformat text :=
    if String.eqb text "2030-01-01T00:00:00+00:00" then inr 1893456000000000
    else inl (ValueError "Invalid isoformat string");
|}.

(** The collaborators with the string conversions of the library's emoji
    classes (their code is not part of this file): an emoji with an id is
    written as its markup [<:name:id>], an emoji without id as its name, and
    an empty name as [_]. *)
Definition emoji_markup (name : string) (id : option Z) : string :=
  let name := if truthy_str name then name else "_" in
  match id with
  | None => name
  | Some i => "<:" +:+ name +:+ ":" +:+ pretty i +:+ ">"
  end.

Definition library_collaborators : Collaborators := {|
  PartialEmoji_str e := emoji_markup (PartialEmoji.name e) (PartialEmoji.id e);
  Emoji_str e := emoji_markup (Emoji.name e) (Some (Emoji.id e));
  fromisoformat text :=
    if String.eqb text "2030-01-01T00:00:00+00:00" then inr 1893456000000000
    else inl (ValueError "Invalid isoformat string");
|}.

Definition sample_state : ConnectionState := {| session := 1 |}.

Definition sample_message : Message.t := Message.mk 7 (Channel.mk 3) sample_state.

Definition sample_tally : PollAnswerCount.t :=
  PollAnswerCount.__init__ sample_state sample_message (PollAnswerCountPayload.mk 1 true 3).

Definition sample_attached_answer : PollAnswer.t :=
  PollAnswer.__init__
    (PollAnswerWithIDPayload.mk 1 (PollMediaPayload.mk "A" None)) (Some sample_message).

Definition sample_unattached_answer : PollAnswer.t :=
  PollAnswer.__init__ (PollAnswerWithIDPayload.mk 1 (PollMediaPayload.mk "A" None)) None.

(** The payload of the example of section 8 of the specification. *)
Definition sample_payload : PollWithExpiryPayload.t :=
  PollWithExpiryPayload.mk
    (PollMediaPayload.mk "Pick one" None)
    [PollAnswerWithIDPayload.mk 1 (PollMediaPayload.mk "A" None);
     PollAnswerWithIDPayload.mk 2 (PollMediaPayload.mk "B" None)]
    (Some false)
    "2030-01-01T00:00:00+00:00"
    None
    (Some (PollResultsPayload.mk true
             [PollAnswerCountPayload.mk 1 true 3; PollAnswerCountPayload.mk 2 false 1])).

(** The same poll with results that list no tally. *)
Definition sample_payload_no_counts : PollWithExpiryPayload.t :=
  PollWithExpiryPayload.mk
    (PollMediaPayload.mk "Pick one" None)
    [PollAnswerWithIDPayload.mk 1 (PollMediaPayload.mk "A" None);
     PollAnswerWithIDPayload.mk 2 (PollMediaPayload.mk "B" None)]
    (Some false)
    "2030-01-01T00:00:00+00:00"
    None
    (Some (PollResultsPayload.mk true [])).

(** A poll whose answers have a custom emoji and a standard one. *)
Definition emoji_payload : PollWithExpiryPayload.t :=
  PollWithExpiryPayload.mk
    (PollMediaPayload.mk "Pick one" None)
    [PollAnswerWithIDPayload.mk 1
       (PollMediaPayload.mk "A" (Some (PollEmojiPayload.mk (Some 5) "party")));
     PollAnswerWithIDPayload.mk 2
       (PollMediaPayload.mk "B" (Some (PollEmojiPayload.mk None "tada")))]
    None
    "2030-01-01T00:00:00+00:00"
    None
    None.

(** A transport that fails every request. *)
Definition no_transport : forall X, Request X -> Exception + X :=
  fun _ _ => inl HTTPException.

(** [Poll("Pick one", 24)] constructed in the empty store at the instant 0:
    the store it leaves and the attributes of the poll, which is at the
    location 1. *)
Definition draft_store : Poll.Store :=
  Poll.store_after
    (Poll.__init__ "Pick one" 24 false PollLayoutType.default 0) Poll.empty_store.

Definition draft_fields : Poll.t :=
  Poll.mk "Pick one" 1%positive 24 false PollLayoutType.default
    None None false None (timedelta_hours 24).

(** [Poll("Pick one", 24).add_answer(text="A")], likewise. *)
Definition one_answer_store : Poll.Store :=
  Poll.store_after
    (Poll.bind
       (Poll.__init__ "Pick one" 24 false PollLayoutType.default 0)
       (fun self => Poll.add_answer (H := sample_collaborators) self "A" None))
    Poll.empty_store.

Definition one_answer : PollAnswer.t :=
  PollAnswer.from_params (H := sample_collaborators) 1 "A" None None.

(** The poll of the example of section 8 rebuilt in the empty store: the
    store, the attributes of the poll, which is at the location 1, and its
    answers. *)
Definition sample_store : Poll.Store :=
  Poll.store_after
    (Poll._from_data (H := sample_collaborators) sample_payload
       sample_message sample_state 0)
    Poll.empty_store.

Definition sample_fields : Poll.t :=
  Poll.mk "Pick one" 1%positive 1 false PollLayoutType.default
    (Some sample_message) (Some sample_state) true (Some 1%positive)
    1893456000000000.

Definition sample_answers : list PollAnswer.t :=
  [PollAnswer.__init__
     (PollAnswerWithIDPayload.mk 1 (PollMediaPayload.mk "A" None)) (Some sample_message);
   PollAnswer.__init__
     (PollAnswerWithIDPayload.mk 2 (PollMediaPayload.mk "B" None)) (Some sample_message)].

(** ** Driving a coroutine *)

(** A request as a caller of the transport sees it. *)
Inductive Call : Type :=
  | voters_call (http : ConnectionState)
      (channel_id message_id answer_id : Z) (after : option Z) (limit : Z)
  | end_call (http : ConnectionState) (channel_id message_id : Z).

Definition describe {X : Type} (r : Request X) : Call :=
  match r with
  | get_poll_answer_voters http channel_id message_id answer_id after limit =>
      voters_call http channel_id message_id answer_id after limit
  | end_poll http channel_id message_id => end_call http channel_id message_id
  end.

(** The requests a coroutine issues, in order, and what it ends with,
    [transport] answering each request. *)
Fixpoint calls_made {A : Type}
    (transport : forall X, Request X -> Exception + X) (c : Coro A) : list Call :=
  match c with
  | CRet _ => []
  | CRaise _ => []
  | CAwait r k => describe r :: calls_made transport (k (transport _ r))
  end.

Fixpoint run_coro {A : Type}
    (transport : forall X, Request X -> Exception + X) (c : Coro A) : Exception + A :=
  match c with
  | CRet a => inr a
  | CRaise e => inl e
  | CAwait r k => run_coro transport (k (transport _ r))
  end.

(** The ids of the answers are their positions, from 1. *)
Definition ids_sequential (xs : list PollAnswer.t) : Prop :=
  map PollAnswer.id xs = seqZ 1 (len xs).

(** Every object of [s] is in [s'], as it was. *)
Definition store_extends (s s' : Poll.Store) : Prop :=
  Poll.polls s ⊆ Poll.polls s' /\
  Poll.answer_lists s ⊆ Poll.answer_lists s' /\
  Poll.count_lists s ⊆ Poll.count_lists s'.

Section Authoring.
Context `{Collaborators}.

(** The media that [from_params] stores for a text and an emoji argument. *)
Definition media_added (text : string) (emoji : option EmojiArg) : PollMediaPayload.t :=
  PollMediaPayload.mk text
    match emoji with
    | Some e =>
        if PollAnswer.truthy_emoji emoji
        then Some (PollEmojiPayload.mk (PollAnswer.id_emoji e) (PollAnswer.str_emoji e))
        else None
    | None => None
    end.

End Authoring.

(** A transport that answers the voter listing with two users and the
    ending of a poll with a message. *)
Definition sample_transport : forall X, Request X -> Exception + X :=
  fun X r =>
    match r in Request T return Exception + T with
    | get_poll_answer_voters _ _ _ _ _ _ =>
        inr {| users := [ {| user_id := 10; username := "ann" |};
                          {| user_id := 11; username := "bob" |} ] |}
    | end_poll _ _ _ => inr {| message_id := 7 |}
    end.

(** A payload whose expiry is no timestamp. *)
Definition bad_expiry_payload : PollWithExpiryPayload.t :=
  PollWithExpiryPayload.mk
    (PollMediaPayload.mk "Pick one" None)
    [PollAnswerWithIDPayload.mk 1 (PollMediaPayload.mk "A" None)]
    None
    "tomorrow"
    None
    None.

(** A payload whose answer ids are not the positions of its answers. *)
Definition sparse_ids_payload : PollWithExpiryPayload.t :=
  PollWithExpiryPayload.mk
    (PollMediaPayload.mk "Pick one" None)
    [PollAnswerWithIDPayload.mk 7 (PollMediaPayload.mk "A" None);
     PollAnswerWithIDPayload.mk 9 (PollMediaPayload.mk "B" None)]
    None
    "2030-01-01T00:00:00+00:00"
    None
    None.

(** * Properties *)

(** ** Voter listing and poll ending before the first request *)

Section Coroutines.
Context `{Collaborators}.

(** A coroutine that fails before any request issues none, whatever the
    transport would answer. *)
Lemma fails_before_request_issues_none {A : Type} (c : Coro A) (e : Exception)
    (transport : forall X, Request X -> Exception + X) :
  fails_before_request c e -> requests_issued transport c = 0%nat.
Proof. unfold fails_before_request. intros ->. reflexivity. Qed.

(** An answer built with a message has both back-references. *)
Lemma answer_init_attached (data : PollAnswerWithIDPayload.t) (message : Message.t) :
  PollAnswer._message (PollAnswer.__init__ data (Some message)) = Some message /\
  PollAnswer._state (PollAnswer.__init__ data (Some message))
    = Some (Message._state message).
Proof. split; reflexivity. Qed.

(** An answer built without a message has none. *)
Lemma answer_init_unattached (data : PollAnswerWithIDPayload.t) :
  PollAnswer._message (PollAnswer.__init__ data None) = None /\
  PollAnswer._state (PollAnswer.__init__ data None) = None.
Proof. split; reflexivity. Qed.

(** Within the bounds, [PollAnswer.users] of an attached answer issues the
    voter-list request for its channel, message and id. *)
Lemma answer_users_in_range (self : PollAnswer.t) (message : Message.t)
    (state : ConnectionState) (after : option Snowflake.t) (limit : Z) :
  PollAnswer._message self = Some message ->
  PollAnswer._state self = Some state ->
  0 <= limit <= 100 ->
  PollAnswer.users self after limit =
    await
      (get_poll_answer_voters state
         (Channel.id (Message.channel message)) (Message.id message)
         (PollAnswer.id self) (Snowflake.id <$> after) limit)
      (fun data => CRet (map (User.mk state) (users data))).
Proof.
  intros Hm Hs [Hlo Hhi]. unfold PollAnswer.users. rewrite Hm, Hs.
  destruct (limit <? 0) eqn:E1; [apply Z.ltb_lt in E1; lia |].
  destruct (100 <? limit) eqn:E2; [apply Z.ltb_lt in E2; lia |].
  reflexivity.
Qed.

(** C7. For every answer with an attached message, listing the voters with a
    limit below 0 or above 100 ([-1] and [101] among them) raises
    [ValueError] before any request is issued. *)
Theorem answer_users_rejects_limit_out_of_range (self : PollAnswer.t)
    (message : Message.t) (state : ConnectionState)
    (after : option Snowflake.t) (limit : Z)
    (transport : forall X, Request X -> Exception + X) :
  PollAnswer._message self = Some message ->
  PollAnswer._state self = Some state ->
  limit < 0 \/ 100 < limit ->
  fails_before_request (PollAnswer.users self after limit)
    (ValueError "limit can only be within 0 and 100") /\
  requests_issued transport (PollAnswer.users self after limit) = 0%nat.
Proof.
  intros Hm Hs Hlimit.
  assert (Hfail : fails_before_request (PollAnswer.users self after limit)
                    (ValueError "limit can only be within 0 and 100")).
  { unfold fails_before_request, PollAnswer.users. rewrite Hm, Hs.
    destruct Hlimit as [Hlo | Hhi].
    - apply Z.ltb_lt in Hlo. rewrite Hlo. reflexivity.
    - apply Z.ltb_lt in Hhi. rewrite Hhi, orb_true_r. reflexivity. }
  split; [exact Hfail |].
  apply fails_before_request_issues_none with (e := ValueError "limit can only be within 0 and 100").
  exact Hfail.
Qed.

(** C5. Listing the voters of an answer that has no message, and ending a
    poll that has no message, raise [RuntimeError] before any request is
    issued. *)
Theorem unattached_calls_fail_before_request (answer : PollAnswer.t)
    (after : option Snowflake.t) (limit : Z)
    (s : Poll.Store) (self : loc) (p : Poll.t)
    (transport : forall X, Request X -> Exception + X) :
  PollAnswer._message answer = None ->
  Poll.polls s !! self = Some p ->
  Poll._message p = None ->
  (fails_before_request (PollAnswer.users answer after limit)
     (RuntimeError "You cannot fetch users in a non-message-attached poll") /\
   requests_issued transport (PollAnswer.users answer after limit) = 0%nat) /\
  exists c,
    Poll.end_ self s = Some c /\
    fails_before_request c
      (RuntimeError
         "This method can only be called when a message is present, try using this via Message.poll.end()") /\
    requests_issued transport c = 0%nat.
Proof.
  intros Ha Hp Hm. split.
  - unfold fails_before_request, PollAnswer.users. rewrite Ha. split; reflexivity.
  - unfold Poll.end_. rewrite Hp. simpl. rewrite Hm.
    eexists. split; [reflexivity |]. split; reflexivity.
Qed.

(** X19.  A tally always has a message and a state, so its voter listing has
    no unattached failure; for a limit within the bounds it is the voter
    listing of an attached answer with the same message, state and id: one
    request for (channel, message, id, after, limit). *)
Theorem tally_users_as_attached_answer_users (self : PollAnswerCount.t)
    (answer : PollAnswer.t) (after : option Snowflake.t) (limit : Z)
    (transport : forall X, Request X -> Exception + X) :
  PollAnswer._message answer = Some (PollAnswerCount._message self) ->
  PollAnswer._state answer = Some (PollAnswerCount._state self) ->
  PollAnswer.id answer = PollAnswerCount.id self ->
  0 <= limit <= 100 ->
  PollAnswerCount.users self after limit = PollAnswer.users answer after limit /\
  requests_issued transport (PollAnswerCount.users self after limit) = 1%nat /\
  forall e, ~ fails_before_request (PollAnswerCount.users self after limit) e.
Proof.
  intros Hm Hs Hid Hlimit.
  rewrite (answer_users_in_range answer _ _ after limit Hm Hs Hlimit), Hid.
  split; [reflexivity |]. split.
  - unfold PollAnswerCount.users, await. simpl.
    destruct (transport _ _); reflexivity.
  - intros e. unfold fails_before_request, PollAnswerCount.users, await. discriminate.
Qed.

(** C1, where the code departs from it.  For a limit below 0 or above 100
    the voter listing of a tally raises nothing before the request: it
    issues the voter-list request with that limit, where the voter listing
    of an attached answer with the same message and state raises
    [ValueError] before any request. *)
Theorem tally_users_skips_limit_check (self : PollAnswerCount.t)
    (answer : PollAnswer.t) (after : option Snowflake.t) (limit : Z)
    (transport : forall X, Request X -> Exception + X) :
  PollAnswer._message answer = Some (PollAnswerCount._message self) ->
  PollAnswer._state answer = Some (PollAnswerCount._state self) ->
  limit < 0 \/ 100 < limit ->
  calls_made transport (PollAnswerCount.users self after limit) =
    [voters_call (PollAnswerCount._state self)
       (Channel.id (Message.channel (PollAnswerCount._message self)))
       (Message.id (PollAnswerCount._message self))
       (PollAnswerCount.id self) (Snowflake.id <$> after) limit] /\
  (forall e, ~ fails_before_request (PollAnswerCount.users self after limit) e) /\
  fails_before_request (PollAnswer.users answer after limit)
    (ValueError "limit can only be within 0 and 100").
Proof.
  intros Hm Hs Hlimit. split; [| split].
  - unfold PollAnswerCount.users, await. simpl.
    destruct (transport _ _); reflexivity.
  - intros e. unfold fails_before_request, PollAnswerCount.users, await. discriminate.
  - unfold fails_before_request, PollAnswer.users. rewrite Hm, Hs.
    destruct Hlimit as [Hlo | Hhi].
    + apply Z.ltb_lt in Hlo. rewrite Hlo. reflexivity.
    + apply Z.ltb_lt in Hhi. rewrite Hhi, orb_true_r. reflexivity.
Qed.

End Coroutines.

(** ** Python list indexing *)

Lemma list_getitem_error {A : Type} (l : list A) (i : Z) (e : Exception) :
  list_getitem l i = inl e -> e = IndexError.
Proof.
  unfold list_getitem. intros Hget.
  destruct (i <? 0); destruct (_ || _); try destruct (l !! _);
    congruence.
Qed.

(** A position from the front. *)
Lemma list_getitem_nonneg {A : Type} (l : list A) (i : Z) :
  0 <= i < len l ->
  exists x, l !! Z.to_nat i = Some x /\ list_getitem l i = inr x.
Proof.
  unfold len, list_getitem. intros [Hlo Hhi].
  destruct (i <? 0) eqn:E; [apply Z.ltb_lt in E; lia |].
  destruct (lookup_lt_is_Some_2 l (Z.to_nat i)) as [x Hx]; [lia |].
  exists x. split; [exact Hx |].
  replace (i <? 0) with false by (symmetry; apply Z.ltb_ge; lia).
  replace (Z.of_nat (length l) <=? i) with false by (symmetry; apply Z.leb_gt; lia).
  simpl. rewrite Hx. reflexivity.
Qed.

(** A negative index within the length counts from the end. *)
Lemma list_getitem_negative {A : Type} (l : list A) (i : Z) :
  - len l <= i < 0 ->
  exists x, l !! Z.to_nat (len l + i) = Some x /\ list_getitem l i = inr x.
Proof.
  unfold len, list_getitem. intros [Hlo Hhi].
  destruct (lookup_lt_is_Some_2 l (Z.to_nat (Z.of_nat (length l) + i))) as [x Hx]; [lia |].
  exists x. split; [exact Hx |].
  replace (i <? 0) with true by (symmetry; apply Z.ltb_lt; lia).
  replace (i + Z.of_nat (length l) <? 0) with false by (symmetry; apply Z.ltb_ge; lia).
  replace (Z.of_nat (length l) <=? i + Z.of_nat (length l)) with false
    by (symmetry; apply Z.leb_gt; lia).
  simpl. replace (i + Z.of_nat (length l)) with (Z.of_nat (length l) + i) by lia.
  rewrite Hx. reflexivity.
Qed.

(** Any other index raises [IndexError]. *)
Lemma list_getitem_out_of_range {A : Type} (l : list A) (i : Z) :
  i < - len l \/ len l <= i -> list_getitem l i = inl IndexError.
Proof.
  unfold len, list_getitem. intros Hi.
  destruct (i <? 0) eqn:E.
  - apply Z.ltb_lt in E.
    destruct Hi as [Hi | Hi]; [| lia].
    replace (i + Z.of_nat (length l) <? 0) with true by (symmetry; apply Z.ltb_lt; lia).
    reflexivity.
  - apply Z.ltb_ge in E.
    destruct Hi as [Hi | Hi]; [lia |].
    replace (Z.of_nat (length l) <=? i) with true by (symmetry; apply Z.leb_le; lia).
    rewrite orb_true_r. reflexivity.
Qed.

(** ** The store *)

Section StoreFacts.

Lemma fresh_lookup_None {V : Type} (m : gmap positive V) : m !! fresh (dom m) = None.
Proof. apply not_elem_of_dom. apply is_fresh. Qed.

Lemma fresh_ne_allocated {V : Type} (m : gmap positive V) (l : positive) (v : V) :
  m !! l = Some v -> fresh (dom m) <> l.
Proof. intros Hl Heq. rewrite <- Heq, fresh_lookup_None in Hl. discriminate. Qed.

Lemma same_but_answers_refl (l : loc) (s : Poll.Store) : Poll.same_but_answers l s s.
Proof. repeat split. Qed.

Lemma same_but_counts_refl (l : loc) (s : Poll.Store) : Poll.same_but_counts l s s.
Proof. repeat split. Qed.

Lemma same_but_answers_trans (l : loc) (s1 s2 s3 : Poll.Store) :
  Poll.same_but_answers l s1 s2 -> Poll.same_but_answers l s2 s3 -> Poll.same_but_answers l s1 s3.
Proof.
  intros (Hp1 & Hc1 & Ha1) (Hp2 & Hc2 & Ha2). repeat split; try congruence.
  intros l' Hne. rewrite Ha2, Ha1 by exact Hne. reflexivity.
Qed.

Lemma same_but_counts_trans (l : loc) (s1 s2 s3 : Poll.Store) :
  Poll.same_but_counts l s1 s2 -> Poll.same_but_counts l s2 s3 -> Poll.same_but_counts l s1 s3.
Proof.
  intros (Hp1 & Hc1 & Ha1) (Hp2 & Hc2 & Ha2). repeat split; try congruence.
  intros l' Hne. rewrite Ha2, Ha1 by exact Hne. reflexivity.
Qed.

Lemma put_answer_list_same_but (l : loc) (xs : list PollAnswer.t) (s : Poll.Store) :
  Poll.same_but_answers l s (Poll.put_answer_list l xs s).
Proof.
  repeat split. intros l' Hne. simpl. apply lookup_insert_ne. congruence.
Qed.

Lemma put_count_list_same_but (l : loc) (cs : list PollAnswerCount.t) (s : Poll.Store) :
  Poll.same_but_counts l s (Poll.put_count_list l cs s).
Proof.
  repeat split. intros l' Hne. simpl. apply lookup_insert_ne. congruence.
Qed.

(** One mutation of the list object at [l] touches nothing else. *)
Lemma mutate_answers_frame (l : loc) (op : ListOp PollAnswer.t) (s : Poll.Store) :
  Poll.same_but_answers l s (Poll.store_after (Poll.mutate_answers l op) s).
Proof.
  unfold Poll.store_after, Poll.mutate_answers, Poll.bind, Poll.answer_list_at.
  destruct (Poll.answer_lists s !! l) as [xs |] eqn:Hl; [| apply same_but_answers_refl].
  destruct (list_apply op xs) as [e | ys].
  - apply same_but_answers_refl.
  - unfold Poll.answer_list_set. rewrite Hl. apply put_answer_list_same_but.
Qed.

Lemma mutate_counts_frame (l : loc) (op : ListOp PollAnswerCount.t) (s : Poll.Store) :
  Poll.same_but_counts l s (Poll.store_after (Poll.mutate_counts l op) s).
Proof.
  unfold Poll.store_after, Poll.mutate_counts, Poll.bind, Poll.count_list_at.
  destruct (Poll.count_lists s !! l) as [cs |] eqn:Hl; [| apply same_but_counts_refl].
  destruct (list_apply op cs) as [e | ds].
  - apply same_but_counts_refl.
  - unfold Poll.count_list_set. rewrite Hl. apply put_count_list_same_but.
Qed.

(** Neither does a sequence of them. *)
Lemma mutate_answers_all_frame (l : loc) (ops : list (ListOp PollAnswer.t))
    (s : Poll.Store) :
  Poll.same_but_answers l s (Poll.mutate_answers_all l ops s).
Proof.
  revert s. induction ops as [| op ops IH]; intros s; simpl.
  - apply same_but_answers_refl.
  - eapply same_but_answers_trans; [apply mutate_answers_frame | apply IH].
Qed.

Lemma mutate_counts_all_frame (l : loc) (ops : list (ListOp PollAnswerCount.t))
    (s : Poll.Store) :
  Poll.same_but_counts l s (Poll.mutate_counts_all l ops s).
Proof.
  revert s. induction ops as [| op ops IH]; intros s; simpl.
  - apply same_but_counts_refl.
  - eapply same_but_counts_trans; [apply mutate_counts_frame | apply IH].
Qed.

End StoreFacts.

(** ** The constructor and the accessors *)

Section PollFacts.
Context `{Collaborators}.

(** Unfolding of the computations of the store, one call at a time. *)
Ltac run :=
  unfold Poll.bind, Poll.ret, Poll.raise, Poll.getattr, Poll.setattr,
    Poll.answer_list_at, Poll.count_list_at, Poll.answer_list_set,
    Poll.count_list_set, Poll.new_answer_list, Poll.new_count_list,
    Poll.new_poll; simpl.

(** [__init__] returns a new poll object with the attributes it assigns and
    a new, empty list of answers. *)
Lemma init_spec (question : string) (duration : Z) (multiselect : bool)
    (layout_type : PollLayoutType.t) (now : datetime) (s : Poll.Store) :
  let answers := fresh (dom (Poll.answer_lists s)) in
  let self := fresh (dom (Poll.polls s)) in
  Poll.__init__ question duration multiselect layout_type now s =
    Poll.Return self
      (Poll.put_poll self
         (Poll.mk question answers duration multiselect layout_type
            None None false None (now + timedelta_hours duration))
         (Poll.put_answer_list answers [] s)).
Proof. reflexivity. Qed.

(** [answers] returns a new list object with the items of [_answers]. *)
Lemma answers_spec (s : Poll.Store) (self : loc) (p : Poll.t)
    (xs : list PollAnswer.t) :
  Poll.polls s !! self = Some p ->
  Poll.answer_lists s !! Poll._answers p = Some xs ->
  Poll.answers self s =
    Poll.Return (fresh (dom (Poll.answer_lists s)))
      (Poll.put_answer_list (fresh (dom (Poll.answer_lists s))) xs s).
Proof.
  intros Hp Hxs. unfold Poll.answers. run. rewrite Hp, Hxs. reflexivity.
Qed.

Lemma answers_items_spec (s : Poll.Store) (self : loc) (p : Poll.t)
    (xs : list PollAnswer.t) :
  Poll.polls s !! self = Some p ->
  Poll.answer_lists s !! Poll._answers p = Some xs ->
  Poll.answers_items self s = Some xs.
Proof.
  intros Hp Hxs. unfold Poll.answers_items.
  rewrite (answers_spec s self p xs Hp Hxs). simpl. apply lookup_insert_eq.
Qed.

(** [answer_counts] returns [None] without [_counts] or with an empty one,
    and a new list object with the items of [_counts] otherwise. *)
Lemma answer_counts_spec (s : Poll.Store) (self : loc) (p : Poll.t) :
  Poll.polls s !! self = Some p ->
  Poll.answer_counts self s =
    match Poll._counts p with
    | None => Poll.Return None s
    | Some counts =>
        match Poll.count_lists s !! counts with
        | None => Poll.Stuck
        | Some [] => Poll.Return None s
        | Some (c :: cs) =>
            Poll.Return (Some (fresh (dom (Poll.count_lists s))))
              (Poll.put_count_list (fresh (dom (Poll.count_lists s))) (c :: cs) s)
        end
    end.
Proof.
  intros Hp. unfold Poll.answer_counts. run. rewrite Hp.
  destruct (Poll._counts p) as [counts |]; [| reflexivity].
  destruct (Poll.count_lists s !! counts) as [[| c cs] |]; reflexivity.
Qed.

Lemma answer_counts_items_spec (s : Poll.Store) (self : loc) (p : Poll.t) :
  Poll.polls s !! self = Some p ->
  Poll.answer_counts_items self s =
    match Poll._counts p with
    | None => Some None
    | Some counts =>
        match Poll.count_lists s !! counts with
        | None => None
        | Some [] => Some None
        | Some (c :: cs) => Some (Some (c :: cs))
        end
    end.
Proof.
  intros Hp. unfold Poll.answer_counts_items.
  rewrite (answer_counts_spec s self p Hp).
  destruct (Poll._counts p) as [counts |]; [| reflexivity].
  destruct (Poll.count_lists s !! counts) as [[| c cs] |]; try reflexivity.
  simpl. rewrite lookup_insert_eq. reflexivity.
Qed.

(** [add_answer] appends to the list object of [_answers] the answer whose
    id is the number of answers plus one, and returns [self]. *)
Lemma add_answer_spec (s : Poll.Store) (self : loc) (p : Poll.t)
    (xs : list PollAnswer.t) (text : string) (emoji : option EmojiArg) :
  Poll.polls s !! self = Some p ->
  Poll.answer_lists s !! Poll._answers p = Some xs ->
  Poll.add_answer self text emoji s =
    Poll.Return self
      (Poll.put_answer_list (Poll._answers p)
         (xs ++ [PollAnswer.from_params (len xs + 1) text emoji (Poll._message p)])
         (Poll.put_answer_list (fresh (dom (Poll.answer_lists s))) xs s)).
Proof.
  intros Hp Hxs. unfold Poll.add_answer.
  unfold Poll.bind at 1. rewrite (answers_spec s self p xs Hp Hxs).
  assert (Hne : fresh (dom (Poll.answer_lists s)) <> Poll._answers p)
    by (eapply fresh_ne_allocated; exact Hxs).
  run. rewrite lookup_insert_eq. simpl. rewrite Hp. simpl.
  rewrite lookup_insert_ne by exact Hne. rewrite Hxs. simpl.
  rewrite lookup_insert_ne by exact Hne. rewrite Hxs. reflexivity.
Qed.

(** [get_answer] returns, whatever the id: it never raises. *)
Lemma get_answer_spec (s : Poll.Store) (self : loc) (p : Poll.t)
    (xs : list PollAnswer.t) (id : Z) :
  Poll.polls s !! self = Some p ->
  Poll.answer_lists s !! Poll._answers p = Some xs ->
  exists s',
    Poll.get_answer self id s = Poll.Return (Poll.get_answer_result xs id) s' /\
    Poll.polls s' = Poll.polls s /\
    Poll.count_lists s' = Poll.count_lists s /\
    Poll.answer_lists s' !! Poll._answers p = Some xs.
Proof.
  intros Hp Hxs. unfold Poll.get_answer, Poll.get_answer_result.
  unfold Poll.bind at 1. rewrite (answers_spec s self p xs Hp Hxs).
  set (copy := fresh (dom (Poll.answer_lists s))).
  set (s1 := Poll.put_answer_list copy xs s).
  assert (Hne : copy <> Poll._answers p) by (eapply fresh_ne_allocated; exact Hxs).
  assert (Hp1 : Poll.polls s1 !! self = Some p) by exact Hp.
  assert (Hxs1 : Poll.answer_lists s1 !! Poll._answers p = Some xs).
  { simpl. rewrite lookup_insert_ne by exact Hne. exact Hxs. }
  unfold Poll.bind at 1, Poll.answer_list_at at 1.
  replace (Poll.answer_lists s1 !! copy) with (Some xs)
    by (symmetry; apply lookup_insert_eq).
  destruct (id >? len xs) eqn:E.
  - exists s1. repeat split; assumption || reflexivity.
  - unfold Poll.bind at 1. rewrite (answers_spec s1 self p xs Hp1 Hxs1).
    set (copy2 := fresh (dom (Poll.answer_lists s1))).
    set (s2 := Poll.put_answer_list copy2 xs s1).
    assert (Hne2 : copy2 <> Poll._answers p) by (eapply fresh_ne_allocated; exact Hxs1).
    unfold Poll.bind at 1, Poll.answer_list_at at 1.
    replace (Poll.answer_lists s2 !! copy2) with (Some xs)
      by (symmetry; apply lookup_insert_eq).
    exists s2.
    assert (Hxs2 : Poll.answer_lists s2 !! Poll._answers p = Some xs).
    { simpl. rewrite lookup_insert_ne by exact Hne2. exact Hxs1. }
    destruct (list_getitem xs (id - 1)) as [e | answer] eqn:Hget.
    + apply list_getitem_error in Hget. subst e.
      repeat split; assumption || reflexivity.
    + repeat split; assumption || reflexivity.
Qed.

(** An id from 1 to the number of answers selects by position. *)
Lemma get_answer_result_in_range (xs : list PollAnswer.t) (id : Z) :
  1 <= id <= len xs ->
  exists answer,
    xs !! Z.to_nat (id - 1) = Some answer /\ Poll.get_answer_result xs id = Some answer.
Proof.
  intros Hid. unfold Poll.get_answer_result.
  replace (id >? len xs) with false
    by (symmetry; rewrite Z.gtb_ltb; apply Z.ltb_ge; lia).
  destruct (list_getitem_nonneg xs (id - 1)) as (answer & Hlookup & Hget); [lia |].
  exists answer. rewrite Hget. split; [exact Hlookup | reflexivity].
Qed.

(** An id above the number of answers, or at most minus that number, selects
    nothing. *)
Lemma get_answer_result_None (xs : list PollAnswer.t) (id : Z) :
  id > len xs \/ id <= - len xs -> Poll.get_answer_result xs id = None.
Proof.
  intros Hid. unfold Poll.get_answer_result.
  destruct (id >? len xs) eqn:E; [reflexivity |].
  rewrite Z.gtb_ltb in E. apply Z.ltb_ge in E.
  rewrite list_getitem_out_of_range; [reflexivity | lia].
Qed.

(** An id from one minus the number of answers to 0 selects from the end. *)
Lemma get_answer_result_from_end (xs : list PollAnswer.t) (id : Z) :
  - len xs < id <= 0 ->
  exists answer,
    xs !! Z.to_nat (len xs + id - 1) = Some answer /\
    Poll.get_answer_result xs id = Some answer.
Proof.
  intros Hid. unfold Poll.get_answer_result.
  replace (id >? len xs) with false
    by (symmetry; rewrite Z.gtb_ltb; apply Z.ltb_ge; unfold len; lia).
  destruct (list_getitem_negative xs (id - 1)) as (answer & Hlookup & Hget); [lia |].
  exists answer. rewrite Hget. split; [| reflexivity].
  replace (len xs + id - 1) with (len xs + (id - 1)) by lia. exact Hlookup.
Qed.

End PollFacts.

(** ** Building a poll *)

Section Building.
Context `{Collaborators}.

(** C6. For every duration d of {1, 4, 8, 24, 72, 168}, the constructor
    returns a new poll whose expiry is the clock reading of the call plus d
    hours, whose list of answers is empty, which has neither message nor
    state, is not finalized and has no tallies. *)
Theorem constructed_poll_is_draft (question : string) (d : Z)
    (multiselect : bool) (layout_type : PollLayoutType.t) (now : datetime)
    (s : Poll.Store) :
  In d PollDuration ->
  exists self s' p,
    Poll.__init__ question d multiselect layout_type now s = Poll.Return self s' /\
    Poll.polls s !! self = None /\
    Poll.polls s' !! self = Some p /\
    Poll.expiry self s' = Poll.Return (now + d * 3600 * 1000000) s' /\
    Poll.backing_answers p s' = Some [] /\
    Poll.answers_items self s' = Some [] /\
    Poll._message p = None /\
    Poll._state p = None /\
    Poll.is_finalized self s' = Poll.Return false s' /\
    Poll.answer_counts self s' = Poll.Return None s'.
Proof.
  intros _. rewrite init_spec. cbv zeta.
  set (answers := fresh (dom (Poll.answer_lists s))).
  set (self := fresh (dom (Poll.polls s))).
  set (p := Poll.mk question answers d multiselect layout_type
              None None false None (now + timedelta_hours d)).
  set (s' := Poll.put_poll self p (Poll.put_answer_list answers [] s)).
  assert (Hp : Poll.polls s' !! self = Some p) by apply lookup_insert_eq.
  assert (Hxs : Poll.answer_lists s' !! Poll._answers p = Some [])
    by apply lookup_insert_eq.
  exists self, s', p. repeat split.
  - apply fresh_lookup_None.
  - exact Hp.
  - unfold Poll.expiry, Poll.bind, Poll.getattr. rewrite Hp. reflexivity.
  - exact Hxs.
  - apply (answers_items_spec s' self p [] Hp Hxs).
  - unfold Poll.is_finalized, Poll.bind, Poll.getattr. rewrite Hp. reflexivity.
  - rewrite (answer_counts_spec s' self p Hp). reflexivity.
Qed.

(** The ids of the answers that chained calls append count up from the
    number of answers. *)
Lemma answers_added_ids (n : Z) (message : option Message.t)
    (args : list (string * option EmojiArg)) :
  map PollAnswer.id (Poll.answers_added n message args) = seqZ (n + 1) (len args).
Proof.
  revert n. induction args as [| [text emoji] rest IH]; intros n.
  - reflexivity.
  - unfold len. simpl length. rewrite seqZ_cons by lia. simpl.
    rewrite IH. unfold len. do 2 f_equal; lia.
Qed.

Lemma from_params_text (id : Z) (text : string) (emoji : option EmojiArg)
    (message : option Message.t) :
  PollAnswer.text (PollAnswer.from_params id text emoji message) = text.
Proof.
  unfold PollAnswer.from_params.
  destruct emoji as [e |]; [destruct (PollAnswer.truthy_emoji (Some e)) |];
    reflexivity.
Qed.

Lemma answers_added_texts (n : Z) (message : option Message.t)
    (args : list (string * option EmojiArg)) :
  map PollAnswer.text (Poll.answers_added n message args) = map fst args.
Proof.
  revert n. induction args as [| [text emoji] rest IH]; intros n.
  - reflexivity.
  - simpl. rewrite from_params_text, IH. reflexivity.
Qed.

Lemma answers_added_length (n : Z) (message : option Message.t)
    (args : list (string * option EmojiArg)) :
  length (Poll.answers_added n message args) = length args.
Proof.
  revert n. induction args as [| [text emoji] rest IH]; intros n; simpl;
    [reflexivity | rewrite IH; reflexivity].
Qed.

Lemma answers_added_lookup (n : Z) (message : option Message.t)
    (args : list (string * option EmojiArg)) (k : nat) (text : string)
    (emoji : option EmojiArg) :
  args !! k = Some (text, emoji) ->
  Poll.answers_added n message args !! k =
    Some (PollAnswer.from_params (n + Z.of_nat k + 1) text emoji message).
Proof.
  revert n k. induction args as [| [text' emoji'] rest IH]; intros n k Hk.
  - discriminate.
  - destruct k as [| k]; simpl in *.
    + injection Hk as -> ->. do 2 f_equal. lia.
    + rewrite (IH (n + 1) k Hk). do 2 f_equal. lia.
Qed.

Lemma answers_added_app (n : Z) (message : option Message.t)
    (before rest : list (string * option EmojiArg)) :
  Poll.answers_added n message (before ++ rest) =
    Poll.answers_added n message before
      ++ Poll.answers_added (n + len before) message rest.
Proof.
  revert n. induction before as [| [text emoji] before IH]; intros n.
  - simpl. unfold len. simpl. rewrite Z.add_0_r. reflexivity.
  - simpl. rewrite IH. do 3 f_equal. unfold len. simpl length. lia.
Qed.

(** Chained calls return the poll they started from and leave its answers
    followed by the new ones. *)
Lemma add_answers_spec (args : list (string * option EmojiArg)) (s : Poll.Store)
    (self : loc) (p : Poll.t) (xs : list PollAnswer.t) :
  Poll.polls s !! self = Some p ->
  Poll.answer_lists s !! Poll._answers p = Some xs ->
  exists s',
    Poll.add_answers self args s = Poll.Return self s' /\
    Poll.polls s' = Poll.polls s /\
    Poll.count_lists s' = Poll.count_lists s /\
    Poll.answer_lists s' !! Poll._answers p =
      Some (xs ++ Poll.answers_added (len xs) (Poll._message p) args).
Proof.
  revert s xs. induction args as [| [text emoji] rest IH]; intros s xs Hp Hxs.
  - exists s. simpl. rewrite app_nil_r. repeat split. exact Hxs.
  - simpl. unfold Poll.bind.
    rewrite (add_answer_spec s self p xs text emoji Hp Hxs).
    set (answer := PollAnswer.from_params (len xs + 1) text emoji (Poll._message p)).
    set (s1 := Poll.put_answer_list (Poll._answers p) (xs ++ [answer]) _).
    destruct (IH s1 (xs ++ [answer])) as (s' & Hrun & Hpolls & Hcounts & Hlist).
    + exact Hp.
    + apply lookup_insert_eq.
    + exists s'. split; [exact Hrun |]. split; [exact Hpolls |].
      split; [exact Hcounts |]. rewrite Hlist, <- app_assoc. simpl.
      replace (len (xs ++ [answer])) with (len xs + 1)
        by (unfold len; rewrite length_app; simpl; lia).
      reflexivity.
Qed.

(** C4. [n] chained calls of [add_answer] on a newly constructed poll each
    return that same poll object and leave it with [n] answers whose ids are
    1..n in call order, the id of each being the number of answers before
    its call plus one; [get_answer k] then returns the k-th of them for
    1 <= k <= n. *)
Theorem add_answer_numbers_from_one (question : string) (duration : Z)
    (multiselect : bool) (layout_type : PollLayoutType.t) (now : datetime)
    (s : Poll.Store) (args : list (string * option EmojiArg)) :
  exists self s0 p sn added,
    Poll.__init__ question duration multiselect layout_type now s
      = Poll.Return self s0 /\
    Poll.polls s0 !! self = Some p /\
    Poll.backing_answers p s0 = Some [] /\
    Poll.add_answers self args s0 = Poll.Return self sn /\
    Poll.polls sn !! self = Some p /\
    Poll.backing_answers p sn = Some added /\
    added = Poll.answers_added 0 None args /\
    map PollAnswer.id added = seqZ 1 (len args) /\
    map PollAnswer.text added = map fst args /\
    (forall k, 1 <= k <= len args ->
       exists answer s',
         added !! Z.to_nat (k - 1) = Some answer /\
         PollAnswer.id answer = k /\
         Poll.get_answer self k sn = Poll.Return (Some answer) s') /\
    (forall before text emoji rest, args = before ++ (text, emoji) :: rest ->
       exists s1 s2 xs answer,
         Poll.add_answers self before s0 = Poll.Return self s1 /\
         Poll.backing_answers p s1 = Some xs /\
         Poll.add_answer self text emoji s1 = Poll.Return self s2 /\
         Poll.backing_answers p s2 = Some (xs ++ [answer]) /\
         PollAnswer.id answer = len xs + 1 /\
         PollAnswer.text answer = text).
Proof.
  rewrite init_spec. cbv zeta.
  set (answers := fresh (dom (Poll.answer_lists s))).
  set (self := fresh (dom (Poll.polls s))).
  set (p := Poll.mk question answers duration multiselect layout_type
              None None false None (now + timedelta_hours duration)).
  set (s0 := Poll.put_poll self p (Poll.put_answer_list answers [] s)).
  assert (Hp : Poll.polls s0 !! self = Some p) by apply lookup_insert_eq.
  assert (Hxs : Poll.answer_lists s0 !! Poll._answers p = Some [])
    by apply lookup_insert_eq.
  destruct (add_answers_spec args s0 self p [] Hp Hxs)
    as (sn & Hrun & Hpolls & _ & Hlist).
  simpl in Hlist.
  assert (Hpn : Poll.polls sn !! self = Some p) by (rewrite Hpolls; exact Hp).
  exists self, s0, p, sn, (Poll.answers_added 0 None args).
  split; [reflexivity |]. split; [exact Hp |]. split; [exact Hxs |].
  split; [exact Hrun |]. split; [exact Hpn |]. split; [exact Hlist |].
  split; [reflexivity |].
  split; [apply (answers_added_ids 0) |].
  split; [apply answers_added_texts |]. split.
  - intros k Hk.
    destruct (get_answer_result_in_range (Poll.answers_added 0 None args) k)
      as (answer & Hlookup & Hresult).
    { unfold len in *. rewrite answers_added_length. exact Hk. }
    destruct (get_answer_spec sn self p _ k Hpn Hlist) as (s' & Hget & _).
    exists answer, s'. split; [exact Hlookup |]. split.
    + assert (Hid : map PollAnswer.id (Poll.answers_added 0 None args)
                      !! Z.to_nat (k - 1) = Some (PollAnswer.id answer))
        by (rewrite list_lookup_fmap, Hlookup; reflexivity).
      rewrite (answers_added_ids 0) in Hid.
      apply lookup_seqZ in Hid. lia.
    + rewrite Hget. f_equal. exact Hresult.
  - intros before text emoji rest ->.
    destruct (add_answers_spec before s0 self p [] Hp Hxs)
      as (s1 & Hrun1 & Hpolls1 & _ & Hlist1).
    simpl in Hlist1.
    assert (Hp1 : Poll.polls s1 !! self = Some p) by (rewrite Hpolls1; exact Hp).
    eexists s1, _, _, _.
    split; [exact Hrun1 |]. split; [exact Hlist1 |].
    split; [apply (add_answer_spec s1 self p _ text emoji Hp1 Hlist1) |].
    split; [apply lookup_insert_eq |].
    split; [reflexivity | apply from_params_text].
Qed.

End Building.

(** ** The accessors return copies *)

Section Copies.
Context `{Collaborators}.

(** What the two accessors show depends on the poll objects and on the list
    objects of their own kind only. *)
Lemma answers_items_same_answers (s s' : Poll.Store) (self : loc) :
  Poll.polls s' = Poll.polls s ->
  Poll.answer_lists s' = Poll.answer_lists s ->
  Poll.answers_items self s' = Poll.answers_items self s.
Proof.
  intros Hpolls Hlists.
  unfold Poll.answers_items, Poll.answers, Poll.bind, Poll.getattr,
    Poll.answer_list_at, Poll.new_answer_list.
  rewrite Hpolls. destruct (Poll.polls s !! self) as [p |]; [| reflexivity].
  rewrite Hlists. destruct (Poll.answer_lists s !! Poll._answers p); [| reflexivity].
  simpl. rewrite Hlists. reflexivity.
Qed.

Lemma answer_counts_items_same_counts (s s' : Poll.Store) (self : loc) :
  Poll.polls s' = Poll.polls s ->
  Poll.count_lists s' = Poll.count_lists s ->
  Poll.answer_counts_items self s' = Poll.answer_counts_items self s.
Proof.
  intros Hpolls Hlists.
  unfold Poll.answer_counts_items, Poll.answer_counts, Poll.bind, Poll.getattr,
    Poll.count_list_at, Poll.new_count_list, Poll.ret.
  rewrite Hpolls. destruct (Poll.polls s !! self) as [p |]; [| reflexivity].
  destruct (Poll._counts p) as [counts |]; [| reflexivity].
  rewrite Hlists. destruct (Poll.count_lists s !! counts) as [[| c cs] |];
    try reflexivity.
  simpl. rewrite Hlists. reflexivity.
Qed.

(** A change of another answer list than [_answers] is not seen through
    [answers]; likewise for the tallies. *)
Lemma answers_items_frame (l : loc) (s s' : Poll.Store) (self : loc) (p : Poll.t)
    (xs : list PollAnswer.t) :
  Poll.same_but_answers l s s' ->
  l <> Poll._answers p ->
  Poll.polls s !! self = Some p ->
  Poll.answer_lists s !! Poll._answers p = Some xs ->
  Poll.polls s' !! self = Some p /\
  Poll.answer_lists s' !! Poll._answers p = Some xs /\
  Poll.answers_items self s' = Some xs.
Proof.
  intros (Hpolls & _ & Hlists) Hne Hp Hxs.
  assert (Hp' : Poll.polls s' !! self = Some p) by (rewrite Hpolls; exact Hp).
  assert (Hxs' : Poll.answer_lists s' !! Poll._answers p = Some xs)
    by (rewrite Hlists by congruence; exact Hxs).
  split; [exact Hp' |]. split; [exact Hxs' |].
  apply (answers_items_spec s' self p xs Hp' Hxs').
Qed.

Lemma answer_counts_items_frame (l : loc) (s s' : Poll.Store) (self : loc)
    (p : Poll.t) :
  Poll.same_but_counts l s s' ->
  Poll._counts p <> Some l ->
  Poll.polls s !! self = Some p ->
  Poll.polls s' !! self = Some p /\
  Poll.backing_counts p s' = Poll.backing_counts p s /\
  Poll.answer_counts_items self s' = Poll.answer_counts_items self s.
Proof.
  intros (Hpolls & _ & Hlists) Hne Hp.
  assert (Hp' : Poll.polls s' !! self = Some p) by (rewrite Hpolls; exact Hp).
  assert (Hback : Poll.backing_counts p s' = Poll.backing_counts p s).
  { unfold Poll.backing_counts. destruct (Poll._counts p) as [counts |]; [| reflexivity].
    apply Hlists. congruence. }
  split; [exact Hp' |]. split; [exact Hback |].
  rewrite (answer_counts_items_spec s' self p Hp'),
    (answer_counts_items_spec s self p Hp).
  unfold Poll.backing_counts in Hback.
  destruct (Poll._counts p) as [counts |]; [| reflexivity].
  rewrite Hback. reflexivity.
Qed.

(** C8. [answers] and [answer_counts] return a new list object with the
    items of the backing list: whatever mutations the caller applies to the
    list returned, the poll object, its backing lists and what both accessors
    show on any later call are as before. *)
Theorem accessors_return_copies (s : Poll.Store) (self : loc) (p : Poll.t)
    (xs : list PollAnswer.t)
    (answer_ops : list (ListOp PollAnswer.t))
    (count_ops : list (ListOp PollAnswerCount.t)) :
  Poll.polls s !! self = Some p ->
  Poll.backing_answers p s = Some xs ->
  (forall counts, Poll._counts p = Some counts ->
     is_Some (Poll.count_lists s !! counts)) ->
  (exists copy s1,
     Poll.answers self s = Poll.Return copy s1 /\
     Poll.answer_lists s1 !! copy = Some xs /\
     copy <> Poll._answers p /\
     let s2 := Poll.mutate_answers_all copy answer_ops s1 in
     Poll.polls s2 !! self = Some p /\
     Poll.backing_answers p s2 = Poll.backing_answers p s /\
     Poll.backing_counts p s2 = Poll.backing_counts p s /\
     Poll.answers_items self s2 = Poll.answers_items self s /\
     Poll.answer_counts_items self s2 = Poll.answer_counts_items self s) /\
  (exists result s1,
     Poll.answer_counts self s = Poll.Return result s1 /\
     match result with
     | None => s1 = s
     | Some copy =>
         Poll.count_lists s1 !! copy = Poll.backing_counts p s /\
         Poll._counts p <> Some copy /\
         let s2 := Poll.mutate_counts_all copy count_ops s1 in
         Poll.polls s2 !! self = Some p /\
         Poll.backing_answers p s2 = Poll.backing_answers p s /\
         Poll.backing_counts p s2 = Poll.backing_counts p s /\
         Poll.answers_items self s2 = Poll.answers_items self s /\
         Poll.answer_counts_items self s2 = Poll.answer_counts_items self s
     end).
Proof.
  intros Hp Hxs Hcounts. unfold Poll.backing_answers in Hxs. split.
  - rewrite (answers_spec s self p xs Hp Hxs).
    set (copy := fresh (dom (Poll.answer_lists s))).
    set (s1 := Poll.put_answer_list copy xs s).
    assert (Hne : copy <> Poll._answers p) by (eapply fresh_ne_allocated; exact Hxs).
    exists copy, s1. split; [reflexivity |].
    split; [apply lookup_insert_eq |]. split; [exact Hne |]. cbv zeta.
    assert (Hframe : Poll.same_but_answers copy s
                       (Poll.mutate_answers_all copy answer_ops s1)).
    { eapply same_but_answers_trans;
        [apply put_answer_list_same_but | apply mutate_answers_all_frame]. }
    destruct (answers_items_frame copy s _ self p xs Hframe Hne Hp Hxs)
      as (Hp2 & Hxs2 & Hitems).
    destruct Hframe as (Hpolls & Hlists & _).
    split; [exact Hp2 |].
    split; [unfold Poll.backing_answers; rewrite Hxs2, Hxs; reflexivity |].
    split; [unfold Poll.backing_counts; rewrite Hlists; reflexivity |].
    split; [rewrite Hitems; symmetry; apply (answers_items_spec s self p xs Hp Hxs) |].
    apply answer_counts_items_same_counts; assumption.
  - rewrite (answer_counts_spec s self p Hp). unfold Poll.backing_counts.
    destruct (Poll._counts p) as [counts |] eqn:Hc.
    2: { exists None, s. split; reflexivity. }
    destruct (Hcounts counts eq_refl) as [cs Hcs]. rewrite Hcs.
    destruct cs as [| c cs].
    { exists None, s. split; reflexivity. }
    set (copy := fresh (dom (Poll.count_lists s))).
    set (s1 := Poll.put_count_list copy (c :: cs) s).
    assert (Hne : copy <> counts) by (eapply fresh_ne_allocated; exact Hcs).
    assert (Hne' : Poll._counts p <> Some copy) by congruence.
    exists (Some copy), s1. split; [reflexivity |].
    split; [apply lookup_insert_eq |]. split; [congruence |]. cbv zeta.
    assert (Hframe : Poll.same_but_counts copy s
                       (Poll.mutate_counts_all copy count_ops s1)).
    { eapply same_but_counts_trans;
        [apply put_count_list_same_but | apply mutate_counts_all_frame]. }
    destruct (answer_counts_items_frame copy s _ self p Hframe Hne' Hp)
      as (Hp2 & Hback & Hitems).
    destruct Hframe as (Hpolls & Hlists & _).
    split; [exact Hp2 |].
    split; [unfold Poll.backing_answers; rewrite Hlists; reflexivity |].
    split; [unfold Poll.backing_counts in Hback; rewrite Hc, Hcs in Hback; exact Hback |].
    split; [apply answers_items_same_answers; assumption | exact Hitems].
Qed.

(** C2, where the code departs from it.  For an id from one minus the number
    of answers up to 0, [get_answer] returns the answer that many places from
    the end (the last one for 0), not [None].  (For every id it returns
    without raising, and it returns [None] for an id above the number of
    answers: [get_answer_spec], [get_answer_result_None].) *)
Theorem get_answer_nonpositive_id_counts_from_end (s : Poll.Store) (self : loc)
    (p : Poll.t) (xs : list PollAnswer.t) (id : Z) :
  Poll.polls s !! self = Some p ->
  Poll.backing_answers p s = Some xs ->
  - len xs < id <= 0 ->
  exists answer s',
    xs !! Z.to_nat (len xs + id - 1) = Some answer /\
    Poll.get_answer self id s = Poll.Return (Some answer) s'.
Proof.
  intros Hp Hxs Hid.
  destruct (get_answer_result_from_end xs id Hid) as (answer & Hlookup & Hresult).
  destruct (get_answer_spec s self p xs id Hp Hxs) as (s' & Hget & _).
  exists answer, s'. split; [exact Hlookup |].
  rewrite Hget. f_equal. exact Hresult.
Qed.

End Copies.

(** ** Polls received and sent *)

Section Payloads.
Context `{Collaborators}.

Lemma bind_Return {A B : Type} (m : Poll.M A) (f : A -> Poll.M B)
    (s s' : Poll.Store) (a : A) :
  m s = Poll.Return a s' -> Poll.bind m f s = f a s'.
Proof. unfold Poll.bind. intros ->. reflexivity. Qed.

Lemma setattr_spec (s : Poll.Store) (self : loc) (p : Poll.t)
    (assign : Poll.t -> Poll.t) :
  Poll.polls s !! self = Some p ->
  Poll.setattr self assign s = Poll.Return tt (Poll.put_poll self (assign p) s).
Proof. unfold Poll.setattr. intros ->. reflexivity. Qed.

Lemma put_poll_lookup (s : Poll.Store) (self : loc) (p : Poll.t) :
  Poll.polls (Poll.put_poll self p s) !! self = Some p.
Proof. apply lookup_insert_eq. Qed.

(** Projections of the store and of the attributes, and nothing else. *)
Ltac project :=
  cbn [Poll.answer_lists Poll.count_lists Poll.polls
       Poll.put_poll Poll.put_answer_list Poll.put_count_list
       Poll._answers Poll._counts
       Poll.set__answers Poll.set__message Poll.set__state
       Poll.set__expiry Poll.set__finalized Poll.set__counts].

(** [_from_data] returns, when the timestamp parses, a new poll object with
    the attributes read from the payload and the duration 1. *)
Lemma from_data_spec (data : PollWithExpiryPayload.t) (message : Message.t)
    (state : ConnectionState) (now : datetime) (s : Poll.Store) (instant : datetime) :
  fromisoformat (PollWithExpiryPayload.expiry data) = inr instant ->
  exists self s1 p,
    Poll._from_data data message state now s = Poll.Return self s1 /\
    Poll.polls s1 !! self = Some p /\
    Poll.question p = PollMediaPayload.text (PollWithExpiryPayload.question data) /\
    Poll.duration p = 1 /\
    Poll.multiselect p = default false (PollWithExpiryPayload.allow_multiselect data) /\
    Poll.layout_type p = try_enum (default 1 (PollWithExpiryPayload.layout_type data)) /\
    Poll._message p = Some message /\
    Poll._state p = Some state /\
    Poll._expiry p = instant /\
    Poll.backing_answers p s1 =
      Some (map (fun answer => PollAnswer.__init__ answer (Some message))
              (PollWithExpiryPayload.answers data)) /\
    match PollWithExpiryPayload.results data with
    | None => Poll._finalized p = false /\ Poll._counts p = None
    | Some results =>
        Poll._finalized p = PollResultsPayload.is_finalized results /\
        is_Some (Poll._counts p) /\
        Poll.backing_counts p s1 =
          Some (map (PollAnswerCount.__init__ state message)
                  (PollResultsPayload.answer_counts results))
    end.
Proof.
  intros Hparse. unfold Poll._from_data.
  set (xs := map _ (PollWithExpiryPayload.answers data)).
  erewrite bind_Return by reflexivity.
  erewrite bind_Return by apply init_spec.
  do 3 erewrite bind_Return by (apply setattr_spec, put_poll_lookup).
  rewrite Hparse.
  erewrite bind_Return by (apply setattr_spec, put_poll_lookup).
  destruct (PollWithExpiryPayload.results data) as [results |].
  - erewrite bind_Return by (apply setattr_spec, put_poll_lookup).
    erewrite bind_Return by reflexivity.
    erewrite bind_Return by (apply setattr_spec, put_poll_lookup).
    eexists _, _, _. split; [reflexivity |].
    split; [apply put_poll_lookup |].
    do 7 (split; [reflexivity |]).
    split; [| split; [reflexivity | split; [eexists; reflexivity |]]].
    + unfold Poll.backing_answers. project.
      rewrite lookup_insert_ne by (eapply fresh_ne_allocated; apply lookup_insert_eq).
      apply lookup_insert_eq.
    + unfold Poll.backing_counts. project. apply lookup_insert_eq.
  - eexists _, _, _. split; [reflexivity |].
    split; [apply put_poll_lookup |].
    do 7 (split; [reflexivity |]).
    split; [| split; reflexivity].
    unfold Poll.backing_answers. project.
    rewrite lookup_insert_ne by (eapply fresh_ne_allocated; apply lookup_insert_eq).
    apply lookup_insert_eq.
Qed.

(** [_to_dict] returns the five keys of the outbound payload, in the order
    of their assignment. *)
Lemma to_dict_spec (s : Poll.Store) (self : loc) (p : Poll.t)
    (xs : list PollAnswer.t) :
  Poll.polls s !! self = Some p ->
  Poll.backing_answers p s = Some xs ->
  exists s',
    Poll._to_dict self s =
      Poll.Return
        (PyDict
           [("allow_multiselect", PyBool (Poll.multiselect p));
            ("question", PyDict [("text", PyStr (Poll.question p))]);
            ("duration", PyInt (Poll.duration p));
            ("layout_type", PyInt (PollLayoutType.value (Poll.layout_type p)));
            ("answers",
             PyList (map (fun answer =>
                            PyDict [("poll_media", PollAnswer._to_dict answer)]) xs))])
        s'.
Proof.
  intros Hp Hxs. unfold Poll._to_dict.
  erewrite bind_Return by (unfold Poll.getattr; rewrite Hp; reflexivity).
  erewrite bind_Return by (apply (answers_spec s self p xs Hp Hxs)).
  erewrite bind_Return
    by (unfold Poll.answer_list_at; project; rewrite lookup_insert_eq; reflexivity).
  eexists. reflexivity.
Qed.

(** Reading back what [PollAnswer._to_dict] builds. *)
Lemma as_media_to_dict (answer : PollAnswer.t) :
  as_media (PollAnswer._to_dict answer) =
    Some (media_sent (PollMediaPayload.mk
                        (PollMedia.text (PollAnswer.media answer))
                        (PollMedia.emoji (PollAnswer.media answer)))).
Proof.
  destruct answer as [[text emoji] id state message].
  unfold PollAnswer._to_dict, PollAnswer.emoji, PollAnswer.text, media_sent, emoji_sent.
  cbn [PollAnswer.media PollMedia.text PollMedia.emoji
       PollMediaPayload.text PollMediaPayload.emoji].
  destruct emoji as [[[i |] name] |]; [| reflexivity | reflexivity].
  unfold truthy_int. simpl. destruct (i =? 0) eqn:E; simpl; rewrite ?E; reflexivity.
Qed.

Lemma media_keys_to_dict (answer : PollAnswer.t) :
  dict_keys (PollAnswer._to_dict answer) =
    "text" :: match PollMedia.emoji (PollAnswer.media answer) with
              | Some _ => ["emoji"]
              | None => []
              end.
Proof.
  destruct answer as [[text emoji] id state message].
  unfold PollAnswer._to_dict, PollAnswer.emoji, PollAnswer.text.
  cbn [PollAnswer.media PollMedia.text PollMedia.emoji].
  destruct emoji as [[[i |] name] |]; [| reflexivity | reflexivity].
  unfold truthy_int. cbn [PartialEmoji.id PollEmojiPayload.id PollEmojiPayload.name].
  destruct (i =? 0); reflexivity.
Qed.

Lemma mapM_map_Some {A B C : Type} (f : B -> option C) (g : A -> B) (h : A -> C)
    (l : list A) :
  (forall x, f (g x) = Some (h x)) -> mapM f (map g l) = Some (map h l).
Proof.
  intros Hfg. induction l as [| x l IH]; [reflexivity |].
  simpl. rewrite Hfg, IH. reflexivity.
Qed.

End Payloads.

Section ReceivedPolls.
Context `{Collaborators}.

(** Serializing the poll rebuilt from a payload whose timestamp parses gives
    back the question text, the multiselect flag
    (false when the payload has none) and, for each answer in order, its text
    and its emoji as [PollAnswer._to_dict] sends it: present exactly when
    received, named by the string conversion of the emoji, with the id when
    that is present and not 0.  Each entry of the outbound [answers] has the
    one key [poll_media], whose dict has [text] and, with an emoji, [emoji]:
    no answer id goes out. *)
Lemma round_trip_as_sent (data : PollWithExpiryPayload.t) (message : Message.t)
    (state : ConnectionState) (now : datetime) (s : Poll.Store) (instant : datetime) :
  fromisoformat (PollWithExpiryPayload.expiry data) = inr instant ->
  exists self s1 out s2,
    Poll._from_data data message state now s = Poll.Return self s1 /\
    Poll._to_dict self s1 = Poll.Return out s2 /\
    value_get "question" out =
      Some (PyDict [("text",
                     PyStr (PollMediaPayload.text (PollWithExpiryPayload.question data)))]) /\
    value_get "allow_multiselect" out =
      Some (PyBool (default false (PollWithExpiryPayload.allow_multiselect data))) /\
    outbound_media out =
      Some (map (fun answer => media_sent (PollAnswerWithIDPayload.poll_media answer))
              (PollWithExpiryPayload.answers data)) /\
    outbound_answer_keys out =
      Some (map (fun _ => ["poll_media"]) (PollWithExpiryPayload.answers data)) /\
    outbound_media_keys out =
      Some (map (fun answer =>
                   "text" ::
                   match PollMediaPayload.emoji (PollAnswerWithIDPayload.poll_media answer) with
                   | Some _ => ["emoji"]
                   | None => []
                   end)
              (PollWithExpiryPayload.answers data)).
Proof.
  intros Hparse.
  destruct (from_data_spec data message state now s instant Hparse)
    as (self & s1 & p & Hrun & Hp & Hq & _ & Hm & _ & _ & _ & _ & Hxs & _).
  destruct (to_dict_spec s1 self p _ Hp Hxs) as (s2 & Hout).
  eexists self, s1, _, s2. split; [exact Hrun |]. split; [exact Hout |].
  split; [simpl; rewrite Hq; reflexivity |].
  split; [simpl; rewrite Hm; reflexivity |].
  unfold outbound_media, outbound_answer_keys, outbound_media_keys.
  cbn [value_get dict_get String.eqb Ascii.eqb Bool.eqb].
  rewrite !map_map. split; [| split].
  - apply mapM_map_Some. intros [answer_id [text emoji]].
    cbn [value_get dict_get String.eqb Ascii.eqb Bool.eqb mbind option_bind].
    apply as_media_to_dict.
  - reflexivity.
  - apply mapM_map_Some. intros [answer_id [text emoji]].
    cbn [value_get dict_get String.eqb Ascii.eqb Bool.eqb fmap option_fmap option_map].
    rewrite media_keys_to_dict. reflexivity.
Qed.

(** C3, where the code departs from it.  The name that goes out for an emoji
    received is the string conversion of the emoji reference rebuilt from
    its name and id, not the name received: whenever that conversion is not
    the bare name, the round trip does not give the emoji back. *)
Theorem round_trip_renames_emoji (data : PollWithExpiryPayload.t)
    (message : Message.t) (state : ConnectionState) (now : datetime)
    (s : Poll.Store) (instant : datetime) (i : nat)
    (entry : PollAnswerWithIDPayload.t) (e : PollEmojiPayload.t) :
  fromisoformat (PollWithExpiryPayload.expiry data) = inr instant ->
  PollWithExpiryPayload.answers data !! i = Some entry ->
  PollMediaPayload.emoji (PollAnswerWithIDPayload.poll_media entry) = Some e ->
  PartialEmoji_str (PartialEmoji.mk (PollEmojiPayload.name e) (PollEmojiPayload.id e))
    <> PollEmojiPayload.name e ->
  ~ round_trip_preserves data message state now s /\
  exists self s1 out s2 sent,
    Poll._from_data data message state now s = Poll.Return self s1 /\
    Poll._to_dict self s1 = Poll.Return out s2 /\
    outbound_media out = Some sent /\
    sent !! i =
      Some (PollMediaPayload.mk
              (PollMediaPayload.text (PollAnswerWithIDPayload.poll_media entry))
              (Some (emoji_sent e))).
Proof.
  intros Hparse Hentry Hemoji Hname.
  destruct (round_trip_as_sent data message state now s instant Hparse)
    as (self & s1 & out & s2 & Hrun & Hout & _ & _ & Hmedia & _).
  assert (Hsent : map (fun answer => media_sent (PollAnswerWithIDPayload.poll_media answer))
                    (PollWithExpiryPayload.answers data) !! i
                  = Some (PollMediaPayload.mk
                            (PollMediaPayload.text (PollAnswerWithIDPayload.poll_media entry))
                            (Some (emoji_sent e)))).
  { rewrite list_lookup_fmap, Hentry. simpl. unfold media_sent. rewrite Hemoji.
    reflexivity. }
  split.
  - intros (self' & s1' & out' & s2' & Hrun' & Hout' & _ & _ & Hmedia').
    rewrite Hrun in Hrun'. injection Hrun' as <- <-.
    rewrite Hout in Hout'. injection Hout' as <- _.
    rewrite Hmedia in Hmedia'. injection Hmedia' as Heq.
    rewrite Heq, list_lookup_fmap, Hentry in Hsent.
    injection Hsent as Hsent.
    destruct (PollAnswerWithIDPayload.poll_media entry) as [text emoji].
    simpl in *. subst emoji. injection Hsent as Hsent.
    apply Hname. apply (f_equal PollEmojiPayload.name) in Hsent.
    symmetry. exact Hsent.
  - eexists self, s1, out, s2, _. split; [exact Hrun |]. split; [exact Hout |].
    split; [exact Hmedia | exact Hsent].
Qed.

(** C9. A poll rebuilt from a payload has the duration 1, whatever the poll
    lasts: [_from_data] constructs it with the duration 1 and assigns the
    expiry of the payload afterwards; serializing it gives the duration 1. *)
Theorem received_poll_has_duration_one (data : PollWithExpiryPayload.t)
    (message : Message.t) (state : ConnectionState) (now : datetime)
    (s : Poll.Store) (instant : datetime) :
  fromisoformat (PollWithExpiryPayload.expiry data) = inr instant ->
  exists self s1 p out s2,
    Poll._from_data data message state now s = Poll.Return self s1 /\
    Poll.polls s1 !! self = Some p /\
    Poll.duration p = 1 /\
    Poll._expiry p = instant /\
    Poll._to_dict self s1 = Poll.Return out s2 /\
    value_get "duration" out = Some (PyInt 1).
Proof.
  intros Hparse.
  destruct (from_data_spec data message state now s instant Hparse)
    as (self & s1 & p & Hrun & Hp & _ & Hd & _ & _ & _ & _ & He & Hxs & _).
  destruct (to_dict_spec s1 self p _ Hp Hxs) as (s2 & Hout).
  eexists self, s1, p, _, s2.
  split; [exact Hrun |]. split; [exact Hp |]. split; [exact Hd |].
  split; [exact He |]. split; [exact Hout |].
  simpl. rewrite Hd. reflexivity.
Qed.

(** C10. For a payload whose results list no tally, the rebuilt poll has an
    empty list of tallies and [answer_counts] returns [None]; and on no poll
    does [answer_counts] return an empty list. *)
Theorem empty_tallies_read_as_None (data : PollWithExpiryPayload.t)
    (message : Message.t) (state : ConnectionState) (now : datetime)
    (s : Poll.Store) (instant : datetime) (results : PollResultsPayload.t) :
  fromisoformat (PollWithExpiryPayload.expiry data) = inr instant ->
  PollWithExpiryPayload.results data = Some results ->
  PollResultsPayload.answer_counts results = [] ->
  (exists self s1 p,
     Poll._from_data data message state now s = Poll.Return self s1 /\
     Poll.polls s1 !! self = Some p /\
     is_Some (Poll._counts p) /\
     Poll.backing_counts p s1 = Some [] /\
     Poll.answer_counts self s1 = Poll.Return None s1) /\
  (forall s0 self0, Poll.answer_counts_items self0 s0 <> Some (Some [])).
Proof.
  intros Hparse Hresults Hempty. split.
  - destruct (from_data_spec data message state now s instant Hparse)
      as (self & s1 & p & Hrun & Hp & _ & _ & _ & _ & _ & _ & _ & _ & Hres).
    rewrite Hresults, Hempty in Hres. destruct Hres as (_ & Hsome & Hback).
    exists self, s1, p. split; [exact Hrun |]. split; [exact Hp |].
    split; [exact Hsome |]. split; [exact Hback |].
    rewrite (answer_counts_spec s1 self p Hp).
    unfold Poll.backing_counts in Hback.
    destruct (Poll._counts p) as [counts |]; [| reflexivity].
    rewrite Hback. reflexivity.
  - intros s0 self0.
    destruct (Poll.polls s0 !! self0) as [p0 |] eqn:Hp0.
    + rewrite (answer_counts_items_spec s0 self0 p0 Hp0).
      destruct (Poll._counts p0) as [counts |]; [| discriminate].
      destruct (Poll.count_lists s0 !! counts) as [[| c cs] |]; discriminate.
    + unfold Poll.answer_counts_items, Poll.answer_counts, Poll.bind, Poll.getattr.
      rewrite Hp0. discriminate.
Qed.

End ReceivedPolls.

(** ** The properties on the ground inputs *)

(** C7 on an attached answer, for the limits -1 and 101. *)
Lemma answer_users_rejects_limit_out_of_range_witness :
  (PollAnswer._message sample_attached_answer = Some sample_message /\
   PollAnswer._state sample_attached_answer = Some sample_state) /\
  (fails_before_request (PollAnswer.users sample_attached_answer None (-1))
     (ValueError "limit can only be within 0 and 100") /\
   requests_issued no_transport (PollAnswer.users sample_attached_answer None (-1)) = 0%nat) /\
  (fails_before_request (PollAnswer.users sample_attached_answer None 101)
     (ValueError "limit can only be within 0 and 100") /\
   requests_issued no_transport (PollAnswer.users sample_attached_answer None 101) = 0%nat).
Proof.
  split; [split; reflexivity |]. split.
  - apply (answer_users_rejects_limit_out_of_range sample_attached_answer
             sample_message sample_state None (-1) no_transport);
      [reflexivity | reflexivity | left; reflexivity].
  - apply (answer_users_rejects_limit_out_of_range sample_attached_answer
             sample_message sample_state None 101 no_transport);
      [reflexivity | reflexivity | right; reflexivity].
Defined.

(** C5 on an answer built without a message and on a constructed poll. *)
Lemma unattached_calls_fail_before_request_witness :
  (PollAnswer._message sample_unattached_answer = None /\
   Poll.polls draft_store !! 1%positive = Some draft_fields /\
   Poll._message draft_fields = None) /\
  fails_before_request (PollAnswer.users sample_unattached_answer None 25)
    (RuntimeError "You cannot fetch users in a non-message-attached poll") /\
  exists c,
    Poll.end_ 1%positive draft_store = Some c /\
    fails_before_request c
      (RuntimeError
         "This method can only be called when a message is present, try using this via Message.poll.end()").
Proof.
  assert (Hp : Poll.polls draft_store !! 1%positive = Some draft_fields)
    by (vm_compute; reflexivity).
  split; [split; [reflexivity | split; [exact Hp | reflexivity]] |].
  destruct (unattached_calls_fail_before_request
              sample_unattached_answer None 25 draft_store 1%positive draft_fields
              no_transport eq_refl Hp eq_refl)
    as [[Husers _] (c & Hend & Hfail & _)].
  split; [exact Husers |]. exists c. split; [exact Hend | exact Hfail].
Defined.

(** X19 on a tally and an answer of the same message. *)
Lemma tally_users_as_attached_answer_users_witness :
  (PollAnswer._message sample_attached_answer = Some (PollAnswerCount._message sample_tally) /\
   PollAnswer._state sample_attached_answer = Some (PollAnswerCount._state sample_tally) /\
   PollAnswer.id sample_attached_answer = PollAnswerCount.id sample_tally /\
   0 <= 25 <= 100) /\
  PollAnswerCount.users sample_tally None 25 = PollAnswer.users sample_attached_answer None 25 /\
  requests_issued no_transport (PollAnswerCount.users sample_tally None 25) = 1%nat.
Proof.
  assert (Hlimit : 0 <= 25 <= 100) by (split; discriminate).
  split; [repeat split; try reflexivity; discriminate |].
  destruct (tally_users_as_attached_answer_users sample_tally sample_attached_answer
              None 25 no_transport eq_refl eq_refl eq_refl Hlimit)
    as (Hsame & Hone & _).
  split; [exact Hsame | exact Hone].
Defined.

(** C1 on a tally and an answer of the same message, for the limits -1 and
    101: the tally goes to the request, the answer raises. *)
Lemma tally_users_skips_limit_check_witness :
  (PollAnswer._message sample_attached_answer
     = Some (PollAnswerCount._message sample_tally) /\
   PollAnswer._state sample_attached_answer
     = Some (PollAnswerCount._state sample_tally)) /\
  (calls_made no_transport (PollAnswerCount.users sample_tally None (-1))
     = [voters_call sample_state 3 7 1 None (-1)] /\
   fails_before_request (PollAnswer.users sample_attached_answer None (-1))
     (ValueError "limit can only be within 0 and 100")) /\
  (calls_made no_transport (PollAnswerCount.users sample_tally None 101)
     = [voters_call sample_state 3 7 1 None 101] /\
   fails_before_request (PollAnswer.users sample_attached_answer None 101)
     (ValueError "limit can only be within 0 and 100")).
Proof.
  split; [split; reflexivity |]. split.
  - destruct (tally_users_skips_limit_check sample_tally sample_attached_answer
                None (-1) no_transport eq_refl eq_refl (or_introl eq_refl))
      as (Hcalls & _ & Hraise).
    split; [exact Hcalls | exact Hraise].
  - destruct (tally_users_skips_limit_check sample_tally sample_attached_answer
                None 101 no_transport eq_refl eq_refl (or_intror eq_refl))
      as (Hcalls & _ & Hraise).
    split; [exact Hcalls | exact Hraise].
Defined.

(** C6 for the duration 24. *)
Lemma constructed_poll_is_draft_witness :
  In 24 PollDuration /\
  exists self s' p,
    Poll.__init__ "Pick one" 24 false PollLayoutType.default 0 Poll.empty_store
      = Poll.Return self s' /\
    Poll.polls s' !! self = Some p /\
    Poll.expiry self s' = Poll.Return (0 + 24 * 3600 * 1000000) s' /\
    Poll.answers_items self s' = Some [] /\
    Poll._message p = None /\
    Poll.is_finalized self s' = Poll.Return false s' /\
    Poll.answer_counts self s' = Poll.Return None s'.
Proof.
  assert (Hd : In 24 PollDuration) by (vm_compute; tauto).
  split; [exact Hd |].
  destruct (constructed_poll_is_draft "Pick one" 24 false PollLayoutType.default 0
              Poll.empty_store Hd)
    as (self & s' & p & Hrun & _ & Hp & Hexp & _ & Hitems & Hm & _ & Hfin & Hcounts).
  exists self, s', p. repeat split; assumption.
Defined.

(** C2: on a poll of one answer, [get_answer 0] returns that answer. *)
Lemma get_answer_nonpositive_id_counts_from_end_witness :
  (Poll.polls one_answer_store !! 1%positive = Some draft_fields /\
   Poll.backing_answers draft_fields one_answer_store = Some [one_answer] /\
   - len [one_answer] < 0 <= 0) /\
  exists s',
    Poll.get_answer 1%positive 0 one_answer_store = Poll.Return (Some one_answer) s' /\
    PollAnswer.id one_answer = 1.
Proof.
  assert (Hp : Poll.polls one_answer_store !! 1%positive = Some draft_fields)
    by (vm_compute; reflexivity).
  assert (Hxs : Poll.backing_answers draft_fields one_answer_store = Some [one_answer])
    by (vm_compute; reflexivity).
  assert (Hid : - len [one_answer] < 0 <= 0) by (split; [reflexivity | discriminate]).
  split; [split; [exact Hp | split; [exact Hxs | exact Hid]] |].
  destruct (get_answer_nonpositive_id_counts_from_end one_answer_store 1%positive
              draft_fields [one_answer] 0 Hp Hxs Hid)
    as (answer & s' & Hlookup & Hget).
  injection Hlookup as <-.
  exists s'. split; [exact Hget | reflexivity].
Defined.

(** C8 on the received poll of the example: after the caller clears the list
    of answers it got and appends to it, and pops from the list of tallies it
    got, both accessors show what they showed. *)
Lemma accessors_return_copies_witness :
  (Poll.polls sample_store !! 1%positive = Some sample_fields /\
   Poll.backing_answers sample_fields sample_store = Some sample_answers /\
   forall counts, Poll._counts sample_fields = Some counts ->
     is_Some (Poll.count_lists sample_store !! counts)) /\
  (exists copy s1,
     Poll.answers 1%positive sample_store = Poll.Return copy s1 /\
     Poll.answers_items 1%positive
       (Poll.mutate_answers_all copy [Clear; Append sample_unattached_answer] s1)
       = Some sample_answers) /\
  (exists copy s1,
     Poll.answer_counts 1%positive sample_store = Poll.Return (Some copy) s1 /\
     Poll.answer_counts_items 1%positive (Poll.mutate_counts_all copy [Pop] s1)
       = Poll.answer_counts_items 1%positive sample_store).
Proof.
  assert (Hp : Poll.polls sample_store !! 1%positive = Some sample_fields)
    by (vm_compute; reflexivity).
  assert (Hxs : Poll.backing_answers sample_fields sample_store = Some sample_answers)
    by (vm_compute; reflexivity).
  assert (Hcs : forall counts, Poll._counts sample_fields = Some counts ->
                  is_Some (Poll.count_lists sample_store !! counts)).
  { intros counts Hc. injection Hc as <-. eexists. vm_compute. reflexivity. }
  split; [split; [exact Hp | split; [exact Hxs | exact Hcs]] |].
  destruct (accessors_return_copies sample_store 1%positive sample_fields
              sample_answers [Clear; Append sample_unattached_answer] [Pop]
              Hp Hxs Hcs)
    as [(copy & s1 & Hrun & _ & _ & _ & _ & _ & Hitems & _)
        (result & s1' & Hrun' & Hresult)].
  split.
  - exists copy, s1. split; [exact Hrun |].
    rewrite Hitems. apply (answers_items_spec sample_store 1%positive sample_fields
                             sample_answers Hp Hxs).
  - destruct result as [copy' |].
    + destruct Hresult as (_ & _ & _ & _ & _ & _ & Hitems').
      exists copy', s1'. split; [exact Hrun' | exact Hitems'].
    + exfalso. vm_compute in Hrun'. discriminate.
Defined.

(** C3 on a payload whose first answer has the custom emoji [party] with the
    id 5, with the string conversions of the library: the name sent is the
    markup of the emoji. *)
Lemma round_trip_renames_emoji_witness :
  (fromisoformat (Collaborators := library_collaborators)
     (PollWithExpiryPayload.expiry emoji_payload) = inr 1893456000000000 /\
   PollWithExpiryPayload.answers emoji_payload !! 0%nat
     = Some (PollAnswerWithIDPayload.mk 1
               (PollMediaPayload.mk "A" (Some (PollEmojiPayload.mk (Some 5) "party")))) /\
   PartialEmoji_str (Collaborators := library_collaborators)
     (PartialEmoji.mk "party" (Some 5)) <> "party") /\
  ~ round_trip_preserves (H := library_collaborators) emoji_payload
      sample_message sample_state 0 Poll.empty_store /\
  exists self s1 out s2 sent,
    Poll._from_data (H := library_collaborators) emoji_payload sample_message
      sample_state 0 Poll.empty_store = Poll.Return self s1 /\
    Poll._to_dict (H := library_collaborators) self s1 = Poll.Return out s2 /\
    outbound_media out = Some sent /\
    sent !! 0%nat
      = Some (PollMediaPayload.mk "A"
                (Some (PollEmojiPayload.mk (Some 5) "<:party:5>"))).
Proof.
  assert (Hname : PartialEmoji_str (Collaborators := library_collaborators)
                    (PartialEmoji.mk "party" (Some 5)) <> "party")
    by (vm_compute; discriminate).
  split; [split; [reflexivity | split; [reflexivity | exact Hname]] |].
  apply (round_trip_renames_emoji (H := library_collaborators) emoji_payload
           sample_message sample_state 0 Poll.empty_store 1893456000000000 0%nat
           (PollAnswerWithIDPayload.mk 1
              (PollMediaPayload.mk "A" (Some (PollEmojiPayload.mk (Some 5) "party"))))
           (PollEmojiPayload.mk (Some 5) "party")
           eq_refl eq_refl eq_refl Hname).
Defined.

(** C9 on the payload of the example. *)
Lemma received_poll_has_duration_one_witness :
  fromisoformat (Collaborators := sample_collaborators)
    (PollWithExpiryPayload.expiry sample_payload) = inr 1893456000000000 /\
  exists self s1 p out s2,
    Poll._from_data (H := sample_collaborators) sample_payload sample_message
      sample_state 0 Poll.empty_store = Poll.Return self s1 /\
    Poll.polls s1 !! self = Some p /\
    Poll.duration p = 1 /\
    Poll._expiry p = 1893456000000000 /\
    Poll._to_dict (H := sample_collaborators) self s1 = Poll.Return out s2 /\
    value_get "duration" out = Some (PyInt 1).
Proof.
  split; [reflexivity |].
  apply (received_poll_has_duration_one (H := sample_collaborators) sample_payload
           sample_message sample_state 0 Poll.empty_store 1893456000000000 eq_refl).
Defined.

(** C10 on the payload whose results list no tally. *)
Lemma empty_tallies_read_as_None_witness :
  (fromisoformat (Collaborators := sample_collaborators)
     (PollWithExpiryPayload.expiry sample_payload_no_counts) = inr 1893456000000000 /\
   PollWithExpiryPayload.results sample_payload_no_counts
     = Some (PollResultsPayload.mk true []) /\
   PollResultsPayload.answer_counts (PollResultsPayload.mk true []) = []) /\
  exists self s1,
    Poll._from_data (H := sample_collaborators) sample_payload_no_counts
      sample_message sample_state 0 Poll.empty_store = Poll.Return self s1 /\
    Poll.answer_counts self s1 = Poll.Return None s1.
Proof.
  split; [repeat split |].
  destruct (empty_tallies_read_as_None (H := sample_collaborators)
              sample_payload_no_counts sample_message sample_state 0
              Poll.empty_store 1893456000000000 (PollResultsPayload.mk true [])
              eq_refl eq_refl eq_refl)
    as [(self & s1 & p & Hrun & _ & _ & _ & Hcounts) _].
  exists self, s1. split; [exact Hrun | exact Hcounts].
Defined.

(** The example of section 8 of the specification: the poll rebuilt from its
    payload is finalized, has two tallies with the counts 3 and 1, and its
    first answer reads "A". *)
Example received_example :
  (exists s', Poll.is_finalized 1%positive sample_store = Poll.Return true s') /\
  map PollAnswerCount.count <$> Poll.backing_counts sample_fields sample_store
    = Some [3; 1] /\
  exists answer s',
    Poll.get_answer 1%positive 1 sample_store = Poll.Return (Some answer) s' /\
    PollAnswer.text answer = "A".
Proof.
  split; [eexists; vm_compute; reflexivity |].
  split; [vm_compute; reflexivity |].
  eexists _, _. split; [vm_compute; reflexivity | reflexivity].
Qed.

(** * Further properties of the module *)

(** ** The network calls on attached objects *)

Section Calls.
Context `{Collaborators}.

(** X1. On an attached answer, every limit from 0 to 100, both included,
    passes the checks: [users] issues the one voter-list request for the
    channel, the message, the id of the answer, [after] and the limit, and
    returns one user per record of the response, in order, each with the
    state of the answer; an exception of the transport comes out unchanged. *)
Theorem answer_users_lists_voters (self : PollAnswer.t) (message : Message.t)
    (state : ConnectionState) (after : option Snowflake.t) (limit : Z)
    (transport : forall X, Request X -> Exception + X) :
  PollAnswer._message self = Some message ->
  PollAnswer._state self = Some state ->
  0 <= limit <= 100 ->
  let request :=
    get_poll_answer_voters state (Channel.id (Message.channel message))
      (Message.id message) (PollAnswer.id self) (Snowflake.id <$> after) limit in
  calls_made transport (PollAnswer.users self after limit) = [describe request] /\
  run_coro transport (PollAnswer.users self after limit) =
    match transport _ request with
    | inl e => inl e
    | inr data => inr (map (User.mk state) (users data))
    end.
Proof.
  intros Hm Hs Hlimit request.
  rewrite (answer_users_in_range self message state after limit Hm Hs Hlimit).
  unfold await. simpl. fold request.
  destruct (transport VotersPayload request); split; reflexivity.
Qed.

(** X2. On a poll with a message, [end] issues the one request that ends the
    poll of that channel and message, through the state of the message; an
    exception of the transport comes out unchanged, and when the request
    answers the coroutine raises [NameError], [Message] being imported for
    type checking only: it never returns a message. *)
Theorem end_ends_the_poll (s : Poll.Store) (self : loc) (p : Poll.t)
    (message : Message.t) (transport : forall X, Request X -> Exception + X) :
  Poll.polls s !! self = Some p ->
  Poll._message p = Some message ->
  let request :=
    end_poll (Message._state message) (Channel.id (Message.channel message))
      (Message.id message) in
  exists c,
    Poll.end_ self s = Some c /\
    calls_made transport c = [describe request] /\
    run_coro transport c =
      match transport _ request with
      | inl e => inl e
      | inr _ => inl (NameError "Message")
      end /\
    forall returned, run_coro transport c <> inr returned.
Proof.
  intros Hp Hm request. unfold Poll.end_. rewrite Hp. simpl. rewrite Hm.
  eexists. split; [reflexivity |]. unfold await. simpl. fold request.
  destruct (transport MessagePayload request); repeat split; discriminate.
Qed.

End Calls.

(** X1 for the limits 0 and 100. *)
Lemma answer_users_lists_voters_witness :
  (PollAnswer._message sample_attached_answer = Some sample_message /\
   PollAnswer._state sample_attached_answer = Some sample_state) /\
  calls_made sample_transport (PollAnswer.users sample_attached_answer None 0)
    = [voters_call sample_state 3 7 1 None 0] /\
  run_coro sample_transport
    (PollAnswer.users sample_attached_answer (Some (Snowflake.mk 10)) 100)
    = inr [User.mk sample_state {| user_id := 10; username := "ann" |};
           User.mk sample_state {| user_id := 11; username := "bob" |}].
Proof.
  split; [split; reflexivity |]. split.
  - apply (answer_users_lists_voters sample_attached_answer sample_message
             sample_state None 0 sample_transport eq_refl eq_refl).
    split; discriminate.
  - apply (answer_users_lists_voters sample_attached_answer sample_message
             sample_state (Some (Snowflake.mk 10)) 100 sample_transport
             eq_refl eq_refl).
    split; discriminate.
Defined.

(** X2 on the received poll of the example. *)
Lemma end_ends_the_poll_witness :
  (Poll.polls sample_store !! 1%positive = Some sample_fields /\
   Poll._message sample_fields = Some sample_message) /\
  exists c,
    Poll.end_ 1%positive sample_store = Some c /\
    calls_made sample_transport c = [end_call sample_state 3 7] /\
    run_coro sample_transport c = inl (NameError "Message").
Proof.
  assert (Hp : Poll.polls sample_store !! 1%positive = Some sample_fields)
    by (vm_compute; reflexivity).
  split; [split; [exact Hp | reflexivity] |].
  destruct (end_ends_the_poll sample_store 1%positive
              sample_fields sample_message sample_transport Hp eq_refl)
    as (c & Hend & Hcalls & Hrun & _).
  exists c. split; [exact Hend |]. split; [exact Hcalls | exact Hrun].
Defined.

(** ** Polls rebuilt from a payload *)

Section Rebuilding.
Context `{Collaborators}.

(** The store that [_from_data] leaves when the timestamp parses: the list of
    the answers, the empty list of the constructor, the list of the tallies
    when there are results, and the poll object with its final attributes. *)
Lemma from_data_result (data : PollWithExpiryPayload.t) (message : Message.t)
    (state : ConnectionState) (now : datetime) (s : Poll.Store) (instant : datetime) :
  fromisoformat (PollWithExpiryPayload.expiry data) = inr instant ->
  let answers := fresh (dom (Poll.answer_lists s)) in
  let xs := map (fun answer => PollAnswer.__init__ answer (Some message))
                (PollWithExpiryPayload.answers data) in
  let self := fresh (dom (Poll.polls s)) in
  let counts := fresh (dom (Poll.count_lists s)) in
  let results := PollWithExpiryPayload.results data in
  Poll._from_data data message state now s =
    Poll.Return self
      (Poll.mkStore
         (<[fresh (dom (<[answers := xs]> (Poll.answer_lists s))) := []]>
            (<[answers := xs]> (Poll.answer_lists s)))
         match results with
         | Some r =>
             <[counts := map (PollAnswerCount.__init__ state message)
                           (PollResultsPayload.answer_counts r)]> (Poll.count_lists s)
         | None => Poll.count_lists s
         end
         (<[self :=
              Poll.mk (PollMediaPayload.text (PollWithExpiryPayload.question data))
                answers 1
                (default false (PollWithExpiryPayload.allow_multiselect data))
                (try_enum (default 1 (PollWithExpiryPayload.layout_type data)))
                (Some message) (Some state)
                match results with
                | Some r => PollResultsPayload.is_finalized r
                | None => false
                end
                match results with
                | Some _ => Some counts
                | None => None
                end
                instant]> (Poll.polls s))).
Proof.
  intros Hparse. cbv zeta. unfold Poll._from_data.
  erewrite bind_Return by reflexivity.
  erewrite bind_Return by apply init_spec.
  do 3 erewrite bind_Return by (apply setattr_spec, put_poll_lookup).
  rewrite Hparse.
  erewrite bind_Return by (apply setattr_spec, put_poll_lookup).
  destruct (PollWithExpiryPayload.results data) as [results |].
  - erewrite bind_Return by (apply setattr_spec, put_poll_lookup).
    erewrite bind_Return by reflexivity.
    erewrite bind_Return by (apply setattr_spec, put_poll_lookup).
    unfold Poll.ret, Poll.put_poll, Poll.put_count_list, Poll.put_answer_list.
    cbn [Poll.answer_lists Poll.count_lists Poll.polls].
    rewrite !insert_insert_eq. reflexivity.
  - unfold Poll.ret, Poll.put_poll, Poll.put_count_list, Poll.put_answer_list.
    cbn [Poll.answer_lists Poll.count_lists Poll.polls].
    rewrite !insert_insert_eq. reflexivity.
Qed.

(** The request of [end] on a poll that has a message. *)
Lemma end_with_message (s : Poll.Store) (self : loc) (p : Poll.t)
    (message : Message.t) (transport : forall X, Request X -> Exception + X) :
  Poll.polls s !! self = Some p ->
  Poll._message p = Some message ->
  exists c,
    Poll.end_ self s = Some c /\
    calls_made transport c =
      [end_call (Message._state message) (Channel.id (Message.channel message))
         (Message.id message)].
Proof.
  intros Hp Hm. unfold Poll.end_. rewrite Hp. simpl. rewrite Hm.
  eexists. split; [reflexivity |]. unfold await. simpl.
  destruct (transport MessagePayload _); reflexivity.
Qed.

(** X3. The poll that [_from_data] returns is attached: each of its answers
    refers to the message and to the state of the message, each of its
    tallies to the message and to the state given to [_from_data], and
    [end] goes to its request, for the channel and the message. *)
Theorem received_poll_is_attached (data : PollWithExpiryPayload.t)
    (message : Message.t) (state : ConnectionState) (now : datetime)
    (s : Poll.Store) (instant : datetime)
    (transport : forall X, Request X -> Exception + X) :
  fromisoformat (PollWithExpiryPayload.expiry data) = inr instant ->
  exists self s1 p xs c,
    Poll._from_data data message state now s = Poll.Return self s1 /\
    Poll.polls s1 !! self = Some p /\
    Poll.answers_items self s1 = Some xs /\
    length xs = length (PollWithExpiryPayload.answers data) /\
    Forall (fun answer =>
              PollAnswer._message answer = Some message /\
              PollAnswer._state answer = Some (Message._state message)) xs /\
    (forall cs, Poll.backing_counts p s1 = Some cs ->
       Forall (fun tally =>
                 PollAnswerCount._message tally = message /\
                 PollAnswerCount._state tally = state) cs) /\
    Poll.end_ self s1 = Some c /\
    calls_made transport c =
      [end_call (Message._state message) (Channel.id (Message.channel message))
         (Message.id message)].
Proof.
  intros Hparse.
  destruct (from_data_spec data message state now s instant Hparse)
    as (self & s1 & p & Hrun & Hp & _ & _ & _ & _ & Hm & _ & _ & Hxs & Hres).
  destruct (end_with_message s1 self p message transport Hp Hm)
    as (c & Hend & Hcalls).
  eexists self, s1, p, _, c.
  split; [exact Hrun |]. split; [exact Hp |].
  split; [apply (answers_items_spec s1 self p _ Hp Hxs) |].
  split; [apply length_map |].
  split; [apply Forall_map, Forall_forall; intros answer _; split; reflexivity |].
  split; [| split; [exact Hend | exact Hcalls]].
  intros cs Hcs. destruct (PollWithExpiryPayload.results data) as [results |].
  - destruct Hres as (_ & _ & Hback). rewrite Hback in Hcs. injection Hcs as <-.
    apply Forall_map, Forall_forall. intros tally _. split; reflexivity.
  - destruct Hres as (_ & Hnone). unfold Poll.backing_counts in Hcs.
    rewrite Hnone in Hcs. discriminate.
Qed.

(** X6. When the expiry of the payload does not parse, [_from_data] raises
    the exception of [datetime.fromisoformat] and returns no poll; every
    object that was in the store is still there, as it was. *)
Theorem from_data_raises_on_bad_expiry (data : PollWithExpiryPayload.t)
    (message : Message.t) (state : ConnectionState) (now : datetime)
    (s : Poll.Store) (e : Exception) :
  fromisoformat (PollWithExpiryPayload.expiry data) = inl e ->
  exists s',
    Poll._from_data data message state now s = Poll.Raise e s' /\
    store_extends s s'.
Proof.
  intros Hparse. unfold Poll._from_data.
  erewrite bind_Return by reflexivity.
  erewrite bind_Return by apply init_spec.
  do 3 erewrite bind_Return by (apply setattr_spec, put_poll_lookup).
  rewrite Hparse. unfold Poll.raise.
  eexists. split; [reflexivity |]. unfold store_extends.
  unfold Poll.put_poll, Poll.put_count_list, Poll.put_answer_list.
  cbn [Poll.answer_lists Poll.count_lists Poll.polls].
  split; [| split].
  - rewrite !insert_insert_eq. apply insert_subseteq, fresh_lookup_None.
  - etransitivity; apply insert_subseteq, fresh_lookup_None.
  - reflexivity.
Qed.

(** X7. A payload without results gives a poll that is not finalized and
    whose [answer_counts] is [None]. *)
Theorem received_poll_without_results (data : PollWithExpiryPayload.t)
    (message : Message.t) (state : ConnectionState) (now : datetime)
    (s : Poll.Store) (instant : datetime) :
  fromisoformat (PollWithExpiryPayload.expiry data) = inr instant ->
  PollWithExpiryPayload.results data = None ->
  exists self s1,
    Poll._from_data data message state now s = Poll.Return self s1 /\
    Poll.is_finalized self s1 = Poll.Return false s1 /\
    Poll.answer_counts self s1 = Poll.Return None s1.
Proof.
  intros Hparse Hnone.
  destruct (from_data_spec data message state now s instant Hparse)
    as (self & s1 & p & Hrun & Hp & _ & _ & _ & _ & _ & _ & _ & _ & Hres).
  rewrite Hnone in Hres. destruct Hres as (Hfin & Hcounts).
  exists self, s1. split; [exact Hrun |]. split.
  - unfold Poll.is_finalized, Poll.bind, Poll.getattr. rewrite Hp.
    unfold Poll.ret. rewrite Hfin. reflexivity.
  - rewrite (answer_counts_spec s1 self p Hp), Hcounts. reflexivity.
Qed.

(** X8. A payload whose results list at least one tally gives a poll that is
    finalized as the results say and whose [answer_counts] shows one tally
    per entry, in order, with the id, the count and the vote flag of the
    entry. *)
Theorem received_poll_with_results (data : PollWithExpiryPayload.t)
    (message : Message.t) (state : ConnectionState) (now : datetime)
    (s : Poll.Store) (instant : datetime) (results : PollResultsPayload.t) :
  fromisoformat (PollWithExpiryPayload.expiry data) = inr instant ->
  PollWithExpiryPayload.results data = Some results ->
  PollResultsPayload.answer_counts results <> [] ->
  exists self s1 tallies,
    Poll._from_data data message state now s = Poll.Return self s1 /\
    Poll.is_finalized self s1
      = Poll.Return (PollResultsPayload.is_finalized results) s1 /\
    Poll.answer_counts_items self s1 = Some (Some tallies) /\
    map PollAnswerCount.id tallies
      = map PollAnswerCountPayload.id (PollResultsPayload.answer_counts results) /\
    map PollAnswerCount.count tallies
      = map PollAnswerCountPayload.count (PollResultsPayload.answer_counts results) /\
    map PollAnswerCount.me_voted tallies
      = map PollAnswerCountPayload.me_voted (PollResultsPayload.answer_counts results).
Proof.
  intros Hparse Hsome Hne.
  destruct (from_data_spec data message state now s instant Hparse)
    as (self & s1 & p & Hrun & Hp & _ & _ & _ & _ & _ & _ & _ & _ & Hres).
  rewrite Hsome in Hres. destruct Hres as (Hfin & _ & Hback).
  exists self, s1, (map (PollAnswerCount.__init__ state message)
                      (PollResultsPayload.answer_counts results)).
  split; [exact Hrun |]. split; [| split].
  - unfold Poll.is_finalized, Poll.bind, Poll.getattr. rewrite Hp.
    unfold Poll.ret. rewrite Hfin. reflexivity.
  - rewrite (answer_counts_items_spec s1 self p Hp).
    unfold Poll.backing_counts in Hback.
    destruct (Poll._counts p) as [counts |]; [| discriminate].
    rewrite Hback.
    destruct (PollResultsPayload.answer_counts results); [congruence | reflexivity].
  - rewrite !map_map. repeat split; reflexivity.
Qed.

(** X9. The poll that [_from_data] returns does not depend on the clock: the
    expiry that the constructor computes from it is replaced by the one of
    the payload. *)
Theorem from_data_ignores_clock (data : PollWithExpiryPayload.t)
    (message : Message.t) (state : ConnectionState) (now1 now2 : datetime)
    (s : Poll.Store) (instant : datetime) :
  fromisoformat (PollWithExpiryPayload.expiry data) = inr instant ->
  Poll._from_data data message state now1 s
    = Poll._from_data data message state now2 s.
Proof.
  intros Hparse.
  pose proof (from_data_result data message state now1 s instant Hparse) as H1.
  pose proof (from_data_result data message state now2 s instant Hparse) as H2.
  cbv zeta in H1, H2. rewrite H1, H2. reflexivity.
Qed.

(** X10. On a poll rebuilt from a payload, [get_answer k] returns the answer
    at the position k of the payload, whatever the [answer_id] it carries. *)
Theorem get_answer_is_by_position (data : PollWithExpiryPayload.t)
    (message : Message.t) (state : ConnectionState) (now : datetime)
    (s : Poll.Store) (instant : datetime) (k : Z)
    (entry : PollAnswerWithIDPayload.t) :
  fromisoformat (PollWithExpiryPayload.expiry data) = inr instant ->
  1 <= k ->
  PollWithExpiryPayload.answers data !! Z.to_nat (k - 1) = Some entry ->
  exists self s1 answer s2,
    Poll._from_data data message state now s = Poll.Return self s1 /\
    Poll.get_answer self k s1 = Poll.Return (Some answer) s2 /\
    answer = PollAnswer.__init__ entry (Some message) /\
    PollAnswer.id answer = PollAnswerWithIDPayload.answer_id entry /\
    PollAnswer.text answer
      = PollMediaPayload.text (PollAnswerWithIDPayload.poll_media entry).
Proof.
  intros Hparse Hk Hentry.
  destruct (from_data_spec data message state now s instant Hparse)
    as (self & s1 & p & Hrun & Hp & _ & _ & _ & _ & _ & _ & _ & Hxs & _).
  set (xs := map (fun a => PollAnswer.__init__ a (Some message))
                 (PollWithExpiryPayload.answers data)) in *.
  assert (Hlen : k <= len xs).
  { apply lookup_lt_Some in Hentry. unfold len, xs. rewrite length_map. lia. }
  destruct (get_answer_result_in_range xs k (conj Hk Hlen))
    as (answer & Hlookup & Hresult).
  destruct (get_answer_spec s1 self p xs k Hp Hxs) as (s2 & Hget & _).
  unfold xs in Hlookup. rewrite list_lookup_fmap, Hentry in Hlookup.
  injection Hlookup as <-.
  eexists self, s1, _, s2. split; [exact Hrun |].
  split; [rewrite Hget; f_equal; exact Hresult |].
  repeat split; reflexivity.
Qed.

End Rebuilding.

(** X3 on the payload of the example. *)
Lemma received_poll_is_attached_witness :
  fromisoformat (Collaborators := sample_collaborators)
    (PollWithExpiryPayload.expiry sample_payload) = inr 1893456000000000 /\
  exists self s1 xs c,
    Poll._from_data (H := sample_collaborators) sample_payload sample_message
      sample_state 0 Poll.empty_store = Poll.Return self s1 /\
    Poll.answers_items self s1 = Some xs /\
    length xs = 2%nat /\
    Forall (fun answer => PollAnswer._message answer = Some sample_message) xs /\
    Poll.end_ self s1 = Some c /\
    calls_made sample_transport c = [end_call sample_state 3 7].
Proof.
  split; [reflexivity |].
  destruct (received_poll_is_attached (H := sample_collaborators) sample_payload
              sample_message sample_state 0 Poll.empty_store 1893456000000000
              sample_transport eq_refl)
    as (self & s1 & p & xs & c & Hrun & _ & Hitems & Hlen & Hall & _ & Hend & Hcalls).
  exists self, s1, xs, c.
  split; [exact Hrun |]. split; [exact Hitems |]. split; [exact Hlen |].
  split; [| split; [exact Hend | exact Hcalls]].
  eapply Forall_impl; [exact Hall |]. intros answer [Hm _]. exact Hm.
Defined.

(** X6 on a payload whose expiry is no timestamp. *)
Lemma from_data_raises_on_bad_expiry_witness :
  fromisoformat (Collaborators := sample_collaborators)
    (PollWithExpiryPayload.expiry bad_expiry_payload)
    = inl (ValueError "Invalid isoformat string") /\
  exists s',
    Poll._from_data (H := sample_collaborators) bad_expiry_payload sample_message
      sample_state 0 sample_store
      = Poll.Raise (ValueError "Invalid isoformat string") s' /\
    store_extends sample_store s'.
Proof.
  split; [reflexivity |].
  apply (from_data_raises_on_bad_expiry (H := sample_collaborators)
           bad_expiry_payload sample_message sample_state 0 sample_store
           (ValueError "Invalid isoformat string") eq_refl).
Defined.

(** X7 on a payload without results. *)
Lemma received_poll_without_results_witness :
  (fromisoformat (Collaborators := sample_collaborators)
     (PollWithExpiryPayload.expiry emoji_payload) = inr 1893456000000000 /\
   PollWithExpiryPayload.results emoji_payload = None) /\
  exists self s1,
    Poll._from_data (H := sample_collaborators) emoji_payload sample_message
      sample_state 0 Poll.empty_store = Poll.Return self s1 /\
    Poll.is_finalized self s1 = Poll.Return false s1 /\
    Poll.answer_counts self s1 = Poll.Return None s1.
Proof.
  split; [split; reflexivity |].
  apply (received_poll_without_results (H := sample_collaborators) emoji_payload
           sample_message sample_state 0 Poll.empty_store 1893456000000000
           eq_refl eq_refl).
Defined.

(** X8 on the payload of the example. *)
Lemma received_poll_with_results_witness :
  (fromisoformat (Collaborators := sample_collaborators)
     (PollWithExpiryPayload.expiry sample_payload) = inr 1893456000000000 /\
   PollWithExpiryPayload.results sample_payload
     = Some (PollResultsPayload.mk true
               [PollAnswerCountPayload.mk 1 true 3; PollAnswerCountPayload.mk 2 false 1])) /\
  exists self s1 tallies,
    Poll._from_data (H := sample_collaborators) sample_payload sample_message
      sample_state 0 Poll.empty_store = Poll.Return self s1 /\
    Poll.is_finalized self s1 = Poll.Return true s1 /\
    Poll.answer_counts_items self s1 = Some (Some tallies) /\
    map PollAnswerCount.id tallies = [1; 2] /\
    map PollAnswerCount.count tallies = [3; 1] /\
    map PollAnswerCount.me_voted tallies = [true; false].
Proof.
  split; [split; reflexivity |].
  apply (received_poll_with_results (H := sample_collaborators) sample_payload
           sample_message sample_state 0 Poll.empty_store 1893456000000000
           (PollResultsPayload.mk true
              [PollAnswerCountPayload.mk 1 true 3; PollAnswerCountPayload.mk 2 false 1])
           eq_refl eq_refl).
  discriminate.
Defined.

(** X9 on the payload of the example, at two instants. *)
Lemma from_data_ignores_clock_witness :
  fromisoformat (Collaborators := sample_collaborators)
    (PollWithExpiryPayload.expiry sample_payload) = inr 1893456000000000 /\
  Poll._from_data (H := sample_collaborators) sample_payload sample_message
    sample_state 0 Poll.empty_store
  = Poll._from_data (H := sample_collaborators) sample_payload sample_message
      sample_state 86400000000 Poll.empty_store.
Proof.
  split; [reflexivity |].
  apply (from_data_ignores_clock (H := sample_collaborators) sample_payload
           sample_message sample_state 0 86400000000 Poll.empty_store
           1893456000000000 eq_refl).
Defined.

(** X10 on a payload whose answers carry the ids 7 and 9: the first answer
    is at 1. *)
Lemma get_answer_is_by_position_witness :
  (fromisoformat (Collaborators := sample_collaborators)
     (PollWithExpiryPayload.expiry sparse_ids_payload) = inr 1893456000000000 /\
   1 <= 1 /\
   PollWithExpiryPayload.answers sparse_ids_payload !! Z.to_nat (1 - 1)
     = Some (PollAnswerWithIDPayload.mk 7 (PollMediaPayload.mk "A" None))) /\
  exists self s1 answer s2,
    Poll._from_data (H := sample_collaborators) sparse_ids_payload sample_message
      sample_state 0 Poll.empty_store = Poll.Return self s1 /\
    Poll.get_answer self 1 s1 = Poll.Return (Some answer) s2 /\
    PollAnswer.id answer = 7 /\
    PollAnswer.text answer = "A".
Proof.
  split; [split; [reflexivity | split; [discriminate | reflexivity]] |].
  destruct (get_answer_is_by_position (H := sample_collaborators) sparse_ids_payload
              sample_message sample_state 0 Poll.empty_store 1893456000000000 1
              (PollAnswerWithIDPayload.mk 7 (PollMediaPayload.mk "A" None))
              eq_refl)
    as (self & s1 & answer & s2 & Hrun & Hget & _ & Hid & Htext);
    [discriminate | reflexivity |].
  exists self, s1, answer, s2. repeat split; assumption.
Defined.

(** ** Answers built from parameters *)

Section Parameters.
Context `{Collaborators}.

(** The media and the back-references of an answer built by [from_params]. *)
Lemma from_params_media (id : Z) (text : string) (emoji : option EmojiArg)
    (message : option Message.t) :
  PollAnswer.media (PollAnswer.from_params id text emoji message) =
    PollMedia.mk (PollMediaPayload.text (media_added text emoji))
                 (PollMediaPayload.emoji (media_added text emoji)).
Proof.
  unfold PollAnswer.from_params, media_added.
  destruct emoji as [e |]; [destruct (PollAnswer.truthy_emoji (Some e)) |];
    reflexivity.
Qed.

Lemma from_params_message (id : Z) (text : string) (emoji : option EmojiArg)
    (message : option Message.t) :
  PollAnswer._message (PollAnswer.from_params id text emoji message) = message /\
  PollAnswer._state (PollAnswer.from_params id text emoji message)
    = Message._state <$> message.
Proof. split; reflexivity. Qed.

(** X4. An answer built with no emoji, or with the empty string as emoji,
    has no emoji: its [emoji] is [None], its payload has the one key [text],
    and the empty string gives the same answer as no emoji at all. *)
Theorem from_params_without_emoji (id : Z) (text : string)
    (emoji : option EmojiArg) (message : option Message.t) :
  PollAnswer.truthy_emoji emoji = false ->
  PollAnswer.from_params id text emoji message
    = PollAnswer.from_params id text None message /\
  PollAnswer.emoji (PollAnswer.from_params id text emoji message) = None /\
  PollAnswer._to_dict (PollAnswer.from_params id text emoji message)
    = PyDict [("text", PyStr text)].
Proof.
  intros Hfalse.
  assert (Hsame : PollAnswer.from_params id text emoji message
                  = PollAnswer.from_params id text None message).
  { unfold PollAnswer.from_params. destruct emoji as [e |]; [| reflexivity].
    rewrite Hfalse. reflexivity. }
  rewrite Hsame. repeat split; reflexivity.
Qed.

(** X5. An answer built with an emoji that is true stores, as the name of
    its emoji, the string conversion of the argument, and as its id the id
    of the argument ([None] for a string).  Its payload then names the emoji
    by the string conversion of the emoji reference made of that name and
    id, and carries the id when it is not 0. *)
Theorem from_params_with_emoji (id : Z) (text : string) (e : EmojiArg)
    (message : option Message.t) :
  PollAnswer.truthy_emoji (Some e) = true ->
  let reference :=
    PartialEmoji.mk (PollAnswer.str_emoji e) (PollAnswer.id_emoji e) in
  PollAnswer.emoji (PollAnswer.from_params id text (Some e) message)
    = Some reference /\
  PollAnswer._to_dict (PollAnswer.from_params id text (Some e) message)
    = PyDict
        [("text", PyStr text);
         ("emoji",
          PyDict (("name", PyStr (PartialEmoji_str reference))
                    :: match PollAnswer.id_emoji e with
                       | Some i => if i =? 0 then [] else [("id", PyInt i)]
                       | None => []
                       end))].
Proof.
  intros Htrue reference.
  unfold PollAnswer.from_params. rewrite Htrue.
  unfold PollAnswer._to_dict, PollAnswer.emoji, PollAnswer.text, PollAnswer.__init__.
  cbn [PollAnswer.media PollMedia.emoji PollMedia.text PollMediaPayload.text
       PollMediaPayload.emoji PollAnswerWithIDPayload.poll_media
       PollEmojiPayload.id PollEmojiPayload.name PartialEmoji.id].
  fold reference. split; [reflexivity |].
  unfold truthy_int. destruct (PollAnswer.id_emoji e) as [i |]; [| reflexivity].
  destruct (i =? 0); reflexivity.
Qed.

End Parameters.

(** X4 for the empty string. *)
Lemma from_params_without_emoji_witness :
  PollAnswer.truthy_emoji (Some (OfStr "")) = false /\
  PollAnswer.emoji
    (PollAnswer.from_params (H := sample_collaborators) 1 "A" (Some (OfStr "")) None)
    = None /\
  PollAnswer._to_dict (H := sample_collaborators)
    (PollAnswer.from_params (H := sample_collaborators) 1 "A" (Some (OfStr "")) None)
    = PyDict [("text", PyStr "A")].
Proof.
  split; [reflexivity |].
  apply (from_params_without_emoji (H := sample_collaborators) 1 "A"
           (Some (OfStr "")) None eq_refl).
Defined.

(** X5 for a custom emoji with the id 5. *)
Lemma from_params_with_emoji_witness :
  PollAnswer.truthy_emoji (Some (OfEmoji (Emoji.mk "party" 5))) = true /\
  PollAnswer.emoji
    (PollAnswer.from_params (H := sample_collaborators) 1 "A"
       (Some (OfEmoji (Emoji.mk "party" 5))) None)
    = Some (PartialEmoji.mk "party" (Some 5)) /\
  PollAnswer._to_dict (H := sample_collaborators)
    (PollAnswer.from_params (H := sample_collaborators) 1 "A"
       (Some (OfEmoji (Emoji.mk "party" 5))) None)
    = PyDict [("text", PyStr "A");
              ("emoji", PyDict [("name", PyStr "party"); ("id", PyInt 5)])].
Proof.
  split; [reflexivity |].
  apply (from_params_with_emoji (H := sample_collaborators) 1 "A"
           (OfEmoji (Emoji.mk "party" 5)) None eq_refl).
Defined.

(** ** Adding answers to any poll, and reading it *)

Section Authored.
Context `{Collaborators}.

Lemma store_extends_refl (s : Poll.Store) : store_extends s s.
Proof. repeat split; reflexivity. Qed.

Lemma store_extends_trans (s1 s2 s3 : Poll.Store) :
  store_extends s1 s2 -> store_extends s2 s3 -> store_extends s1 s3.
Proof.
  intros (Hp1 & Ha1 & Hc1) (Hp2 & Ha2 & Hc2).
  repeat split; etransitivity; eassumption.
Qed.

(** A new list of answers, or of tallies, changes no object of the store. *)
Lemma new_answer_list_extends (xs : list PollAnswer.t) (s : Poll.Store) :
  store_extends s
    (Poll.put_answer_list (fresh (dom (Poll.answer_lists s))) xs s).
Proof.
  repeat split; try reflexivity. simpl. apply insert_subseteq, fresh_lookup_None.
Qed.

Lemma new_count_list_extends (cs : list PollAnswerCount.t) (s : Poll.Store) :
  store_extends s
    (Poll.put_count_list (fresh (dom (Poll.count_lists s))) cs s).
Proof.
  repeat split; try reflexivity. simpl. apply insert_subseteq, fresh_lookup_None.
Qed.

(** What is read through a poll in a store is read in every store that
    extends it. *)
Lemma store_extends_poll (s s' : Poll.Store) (self : loc) (p : Poll.t)
    (xs : list PollAnswer.t) :
  store_extends s s' ->
  Poll.polls s !! self = Some p ->
  Poll.answer_lists s !! Poll._answers p = Some xs ->
  Poll.polls s' !! self = Some p /\
  Poll.answer_lists s' !! Poll._answers p = Some xs.
Proof.
  intros (Hp & Ha & _) Hself Hxs. split.
  - eapply lookup_weaken; eassumption.
  - eapply lookup_weaken; eassumption.
Qed.

(** X11. On any poll, [add_answer] returns the poll and changes one thing:
    the list of its answers has one more answer at its end, after the
    answers that were there, in their order.  The new answer has the given
    text, the message of the poll, and as its id the number of answers there
    were plus one, whatever their ids.  The attributes of the poll, its
    tallies and the other lists are as before. *)
Theorem add_answer_appends_one (s : Poll.Store) (self : loc) (p : Poll.t)
    (xs : list PollAnswer.t) (text : string) (emoji : option EmojiArg) :
  Poll.polls s !! self = Some p ->
  Poll.backing_answers p s = Some xs ->
  exists s' answer,
    Poll.add_answer self text emoji s = Poll.Return self s' /\
    Poll.polls s' = Poll.polls s /\
    Poll.count_lists s' = Poll.count_lists s /\
    Poll.answers_items self s' = Some (xs ++ [answer]) /\
    PollAnswer.id answer = len xs + 1 /\
    PollAnswer.text answer = text /\
    PollAnswer._message answer = Poll._message p /\
    (forall l ys, l <> Poll._answers p ->
       Poll.answer_lists s !! l = Some ys -> Poll.answer_lists s' !! l = Some ys).
Proof.
  intros Hp Hxs. unfold Poll.backing_answers in Hxs.
  rewrite (add_answer_spec s self p xs text emoji Hp Hxs).
  set (answer := PollAnswer.from_params (len xs + 1) text emoji (Poll._message p)).
  set (copy := fresh (dom (Poll.answer_lists s))).
  set (s' := Poll.put_answer_list (Poll._answers p) (xs ++ [answer])
               (Poll.put_answer_list copy xs s)).
  exists s', answer. split; [reflexivity |]. split; [reflexivity |].
  split; [reflexivity |]. split.
  - apply (answers_items_spec s' self p); [exact Hp | apply lookup_insert_eq].
  - split; [reflexivity |]. split; [apply from_params_text |].
    split; [apply from_params_message |].
    intros l ys Hne Hl. simpl.
    rewrite lookup_insert_ne by congruence.
    rewrite lookup_insert_ne; [exact Hl |].
    eapply fresh_ne_allocated. exact Hl.
Qed.

(** X12. If the ids of the answers of a poll are their positions, they
    still are after any chain of [add_answer], and [get_answer k] then
    returns the answer whose id is k, for every k from 1 to the number of
    answers. *)
Theorem add_answers_keep_ids_sequential (s : Poll.Store) (self : loc) (p : Poll.t)
    (xs : list PollAnswer.t) (args : list (string * option EmojiArg)) :
  Poll.polls s !! self = Some p ->
  Poll.backing_answers p s = Some xs ->
  ids_sequential xs ->
  exists s' ys,
    Poll.add_answers self args s = Poll.Return self s' /\
    Poll.backing_answers p s' = Some ys /\
    length ys = (length xs + length args)%nat /\
    ids_sequential ys /\
    forall k, 1 <= k <= len ys ->
      exists answer s'',
        Poll.get_answer self k s' = Poll.Return (Some answer) s'' /\
        PollAnswer.id answer = k.
Proof.
  intros Hp Hxs Hseq. unfold Poll.backing_answers in Hxs.
  destruct (add_answers_spec args s self p xs Hp Hxs)
    as (s' & Hrun & Hpolls & _ & Hlist).
  set (ys := xs ++ Poll.answers_added (len xs) (Poll._message p) args) in *.
  assert (Hlen : length ys = (length xs + length args)%nat)
    by (unfold ys; rewrite length_app, answers_added_length; reflexivity).
  assert (Hids : ids_sequential ys).
  { unfold ids_sequential, ys. rewrite map_app, answers_added_ids, Hseq.
    unfold len. rewrite length_app, answers_added_length, Nat2Z.inj_add.
    rewrite seqZ_app by lia. rewrite (Z.add_comm 1). reflexivity. }
  assert (Hp' : Poll.polls s' !! self = Some p) by (rewrite Hpolls; exact Hp).
  exists s', ys. split; [exact Hrun |]. split; [exact Hlist |].
  split; [exact Hlen |]. split; [exact Hids |].
  intros k Hk.
  destruct (get_answer_result_in_range ys k Hk) as (answer & Hlookup & Hresult).
  destruct (get_answer_spec s' self p ys k Hp' Hlist) as (s'' & Hget & _).
  exists answer, s''. split; [rewrite Hget; f_equal; exact Hresult |].
  assert (Hid : map PollAnswer.id ys !! Z.to_nat (k - 1) = Some (PollAnswer.id answer))
    by (rewrite list_lookup_fmap, Hlookup; reflexivity).
  rewrite Hids in Hid. apply lookup_seqZ in Hid. lia.
Qed.

(** The store that [get_answer] and [_to_dict] leave extends the one they
    start from. *)
Lemma get_answer_extends (s : Poll.Store) (self : loc) (p : Poll.t)
    (xs : list PollAnswer.t) (id : Z) :
  Poll.polls s !! self = Some p ->
  Poll.answer_lists s !! Poll._answers p = Some xs ->
  exists s',
    Poll.get_answer self id s = Poll.Return (Poll.get_answer_result xs id) s' /\
    store_extends s s'.
Proof.
  intros Hp Hxs. unfold Poll.get_answer, Poll.get_answer_result.
  erewrite bind_Return by (apply (answers_spec s self p xs Hp Hxs)).
  set (s1 := Poll.put_answer_list (fresh (dom (Poll.answer_lists s))) xs s).
  assert (Hext1 : store_extends s s1) by apply new_answer_list_extends.
  destruct (store_extends_poll s s1 self p xs Hext1 Hp Hxs) as (Hp1 & Hxs1).
  erewrite bind_Return
    by (unfold Poll.answer_list_at; simpl; rewrite lookup_insert_eq; reflexivity).
  destruct (id >? len xs).
  - exists s1. split; [reflexivity | exact Hext1].
  - erewrite bind_Return by (apply (answers_spec s1 self p xs Hp1 Hxs1)).
    set (s2 := Poll.put_answer_list (fresh (dom (Poll.answer_lists s1))) xs s1).
    erewrite bind_Return
      by (unfold Poll.answer_list_at; simpl; rewrite lookup_insert_eq; reflexivity).
    exists s2. split.
    + destruct (list_getitem xs (id - 1)) as [e | answer] eqn:Hget;
        [apply list_getitem_error in Hget; subst e |]; reflexivity.
    + eapply store_extends_trans; [exact Hext1 | apply new_answer_list_extends].
Qed.

Lemma to_dict_extends (s : Poll.Store) (self : loc) (p : Poll.t)
    (xs : list PollAnswer.t) :
  Poll.polls s !! self = Some p ->
  Poll.answer_lists s !! Poll._answers p = Some xs ->
  exists out s',
    Poll._to_dict self s = Poll.Return out s' /\
    store_extends s s' /\
    out =
      PyDict
        [("allow_multiselect", PyBool (Poll.multiselect p));
         ("question", PyDict [("text", PyStr (Poll.question p))]);
         ("duration", PyInt (Poll.duration p));
         ("layout_type", PyInt (PollLayoutType.value (Poll.layout_type p)));
         ("answers",
          PyList (map (fun answer =>
                         PyDict [("poll_media", PollAnswer._to_dict answer)]) xs))].
Proof.
  intros Hp Hxs. unfold Poll._to_dict.
  erewrite bind_Return by (unfold Poll.getattr; rewrite Hp; reflexivity).
  erewrite bind_Return by (apply (answers_spec s self p xs Hp Hxs)).
  erewrite bind_Return
    by (unfold Poll.answer_list_at; simpl; rewrite lookup_insert_eq; reflexivity).
  eexists _, _. split; [reflexivity |].
  split; [apply new_answer_list_extends | reflexivity].
Qed.

(** X13. Reading a poll changes no object of the store: [answers],
    [answer_counts], [get_answer] and [_to_dict] return, and every poll
    object and every list that was in the store is there as it was (they
    only add the list objects they return or read from); [expiry] and
    [is_finalized] leave the store as it is. *)
Theorem reading_changes_no_object (s : Poll.Store) (self : loc) (p : Poll.t)
    (xs : list PollAnswer.t) (id : Z) :
  Poll.polls s !! self = Some p ->
  Poll.backing_answers p s = Some xs ->
  (forall counts, Poll._counts p = Some counts ->
     is_Some (Poll.count_lists s !! counts)) ->
  (exists copy s', Poll.answers self s = Poll.Return copy s' /\ store_extends s s') /\
  (exists result s',
     Poll.answer_counts self s = Poll.Return result s' /\ store_extends s s') /\
  (exists result s',
     Poll.get_answer self id s = Poll.Return result s' /\ store_extends s s') /\
  (exists out s', Poll._to_dict self s = Poll.Return out s' /\ store_extends s s') /\
  Poll.expiry self s = Poll.Return (Poll._expiry p) s /\
  Poll.is_finalized self s = Poll.Return (Poll._finalized p) s.
Proof.
  intros Hp Hxs Hcounts. unfold Poll.backing_answers in Hxs.
  split; [| split; [| split; [| split; [| split]]]].
  - rewrite (answers_spec s self p xs Hp Hxs).
    eexists _, _. split; [reflexivity | apply new_answer_list_extends].
  - rewrite (answer_counts_spec s self p Hp).
    destruct (Poll._counts p) as [counts |] eqn:Hc.
    2: { exists None, s. split; [reflexivity | apply store_extends_refl]. }
    destruct (Hcounts counts eq_refl) as [cs Hcs]. rewrite Hcs.
    destruct cs as [| c cs].
    + exists None, s. split; [reflexivity | apply store_extends_refl].
    + eexists _, _. split; [reflexivity | apply new_count_list_extends].
  - destruct (get_answer_extends s self p xs id Hp Hxs) as (s' & Hget & Hext).
    eexists _, s'. split; [exact Hget | exact Hext].
  - destruct (to_dict_extends s self p xs Hp Hxs) as (out & s' & Hout & Hext & _).
    exists out, s'. split; [exact Hout | exact Hext].
  - unfold Poll.expiry, Poll.bind, Poll.getattr. rewrite Hp. reflexivity.
  - unfold Poll.is_finalized, Poll.bind, Poll.getattr. rewrite Hp. reflexivity.
Qed.

(** X14. Whatever the poll, draft or received, [_to_dict] returns a dict with
    the five keys [allow_multiselect], [question], [duration], [layout_type]
    and [answers], in that order, holding the attributes of the poll and one
    entry per answer: the expiry, the finalized flag and the tallies are
    never sent. *)
Theorem to_dict_sends_five_keys (s : Poll.Store) (self : loc) (p : Poll.t)
    (xs : list PollAnswer.t) :
  Poll.polls s !! self = Some p ->
  Poll.backing_answers p s = Some xs ->
  exists out s' entries,
    Poll._to_dict self s = Poll.Return out s' /\
    dict_keys out
      = ["allow_multiselect"; "question"; "duration"; "layout_type"; "answers"] /\
    value_get "allow_multiselect" out = Some (PyBool (Poll.multiselect p)) /\
    value_get "question" out = Some (PyDict [("text", PyStr (Poll.question p))]) /\
    value_get "duration" out = Some (PyInt (Poll.duration p)) /\
    value_get "layout_type" out
      = Some (PyInt (PollLayoutType.value (Poll.layout_type p))) /\
    value_get "answers" out = Some (PyList entries) /\
    length entries = length xs /\
    value_get "expiry" out = None /\
    value_get "results" out = None.
Proof.
  intros Hp Hxs.
  destruct (to_dict_extends s self p xs Hp Hxs) as (out & s' & Hout & _ & ->).
  eexists _, s', _. split; [exact Hout |].
  repeat split; try reflexivity. simpl. apply length_map.
Qed.

(** The answers of a chain of [add_answer] read back from their payloads. *)
Lemma answers_added_media (n : Z) (message : option Message.t)
    (args : list (string * option EmojiArg)) :
  mapM (fun o => value_get "poll_media" o ≫= as_media)
    (map (fun answer => PyDict [("poll_media", PollAnswer._to_dict answer)])
         (Poll.answers_added n message args))
  = Some (map (fun arg => media_sent (media_added (fst arg) (snd arg))) args).
Proof.
  revert n. induction args as [| [text emoji] rest IH]; intros n; [reflexivity |].
  cbn [Poll.answers_added map mapM fst snd].
  rewrite IH.
  cbn [value_get dict_get String.eqb Ascii.eqb Bool.eqb mbind option_bind].
  rewrite as_media_to_dict, from_params_media.
  destruct (media_added text emoji) as [text' emoji']. reflexivity.
Qed.

Lemma answers_added_unattached (n : Z) (args : list (string * option EmojiArg)) :
  Forall (fun answer => PollAnswer._message answer = None)
    (Poll.answers_added n None args).
Proof.
  revert n. induction args as [| [text emoji] rest IH]; intros n; simpl.
  - constructor.
  - constructor; [apply from_params_message | apply IH].
Qed.

(** X15. The payload of a poll written by the constructor and a chain of
    [add_answer] carries the question, the duration, the multiselect flag
    and the layout given to the constructor and, for each call in order, the
    text of the call and its emoji as [from_params] stores it and
    [PollAnswer._to_dict] sends it. *)
Theorem authored_poll_payload (question : string) (duration : Z)
    (multiselect : bool) (layout_type : PollLayoutType.t) (now : datetime)
    (s : Poll.Store) (args : list (string * option EmojiArg)) :
  exists self s0 sn out s',
    Poll.__init__ question duration multiselect layout_type now s
      = Poll.Return self s0 /\
    Poll.add_answers self args s0 = Poll.Return self sn /\
    Poll._to_dict self sn = Poll.Return out s' /\
    value_get "question" out = Some (PyDict [("text", PyStr question)]) /\
    value_get "duration" out = Some (PyInt duration) /\
    value_get "allow_multiselect" out = Some (PyBool multiselect) /\
    value_get "layout_type" out = Some (PyInt (PollLayoutType.value layout_type)) /\
    outbound_media out
      = Some (map (fun arg => media_sent (media_added (fst arg) (snd arg))) args) /\
    map PollMediaPayload.text <$> outbound_media out = Some (map fst args).
Proof.
  rewrite init_spec. cbv zeta.
  set (answers := fresh (dom (Poll.answer_lists s))).
  set (self := fresh (dom (Poll.polls s))).
  set (p := Poll.mk question answers duration multiselect layout_type
              None None false None (now + timedelta_hours duration)).
  set (s0 := Poll.put_poll self p (Poll.put_answer_list answers [] s)).
  assert (Hp : Poll.polls s0 !! self = Some p) by apply lookup_insert_eq.
  assert (Hxs : Poll.answer_lists s0 !! Poll._answers p = Some [])
    by apply lookup_insert_eq.
  destruct (add_answers_spec args s0 self p [] Hp Hxs)
    as (sn & Hrun & Hpolls & _ & Hlist).
  simpl in Hlist.
  assert (Hpn : Poll.polls sn !! self = Some p) by (rewrite Hpolls; exact Hp).
  destruct (to_dict_extends sn self p _ Hpn Hlist) as (out & s' & Hout & _ & ->).
  eexists self, s0, sn, _, s'.
  split; [reflexivity |]. split; [exact Hrun |]. split; [exact Hout |].
  do 4 (split; [reflexivity |]).
  match goal with
  | |- outbound_media ?o = _ /\ _ =>
      assert (Hmedia : outbound_media o
                = Some (map (fun arg => media_sent (media_added (fst arg) (snd arg)))
                          args))
  end.
  { unfold outbound_media.
    cbn [value_get dict_get String.eqb Ascii.eqb Bool.eqb].
    apply answers_added_media. }
  split; [exact Hmedia |].
  rewrite Hmedia. simpl. rewrite map_map. f_equal.
Qed.

(** X16. The answers that [add_answer] appends to a poll written by the
    constructor have no message: listing the voters of any of them raises
    [RuntimeError] before any request, whatever the limit. *)
Theorem draft_answers_cannot_list_voters (question : string) (duration : Z)
    (multiselect : bool) (layout_type : PollLayoutType.t) (now : datetime)
    (s : Poll.Store) (args : list (string * option EmojiArg)) :
  exists self s0 sn xs,
    Poll.__init__ question duration multiselect layout_type now s
      = Poll.Return self s0 /\
    Poll.add_answers self args s0 = Poll.Return self sn /\
    Poll.answers_items self sn = Some xs /\
    length xs = length args /\
    Forall (fun answer =>
              forall after limit,
                fails_before_request (PollAnswer.users answer after limit)
                  (RuntimeError
                     "You cannot fetch users in a non-message-attached poll")) xs.
Proof.
  rewrite init_spec. cbv zeta.
  set (answers := fresh (dom (Poll.answer_lists s))).
  set (self := fresh (dom (Poll.polls s))).
  set (p := Poll.mk question answers duration multiselect layout_type
              None None false None (now + timedelta_hours duration)).
  set (s0 := Poll.put_poll self p (Poll.put_answer_list answers [] s)).
  assert (Hp : Poll.polls s0 !! self = Some p) by apply lookup_insert_eq.
  assert (Hxs : Poll.answer_lists s0 !! Poll._answers p = Some [])
    by apply lookup_insert_eq.
  destruct (add_answers_spec args s0 self p [] Hp Hxs)
    as (sn & Hrun & Hpolls & _ & Hlist).
  simpl in Hlist.
  assert (Hpn : Poll.polls sn !! self = Some p) by (rewrite Hpolls; exact Hp).
  exists self, s0, sn, (Poll.answers_added 0 None args).
  split; [reflexivity |]. split; [exact Hrun |].
  split; [apply (answers_items_spec sn self p _ Hpn Hlist) |].
  split; [apply answers_added_length |].
  eapply Forall_impl; [apply answers_added_unattached |].
  intros answer Hnone after limit.
  unfold fails_before_request, PollAnswer.users. rewrite Hnone. reflexivity.
Qed.

End Authored.

(** X11 on the received poll of the example: the answer added is the third
    and refers to the message of the poll. *)
Lemma add_answer_appends_one_witness :
  (Poll.polls sample_store !! 1%positive = Some sample_fields /\
   Poll.backing_answers sample_fields sample_store = Some sample_answers) /\
  exists s' answer,
    Poll.add_answer (H := sample_collaborators) 1%positive "C" None sample_store
      = Poll.Return 1%positive s' /\
    Poll.answers_items 1%positive s' = Some (sample_answers ++ [answer]) /\
    PollAnswer.id answer = 3 /\
    PollAnswer._message answer = Some sample_message.
Proof.
  assert (Hp : Poll.polls sample_store !! 1%positive = Some sample_fields)
    by (vm_compute; reflexivity).
  assert (Hxs : Poll.backing_answers sample_fields sample_store = Some sample_answers)
    by (vm_compute; reflexivity).
  split; [split; [exact Hp | exact Hxs] |].
  destruct (add_answer_appends_one (H := sample_collaborators) sample_store
              1%positive sample_fields sample_answers "C" None Hp Hxs)
    as (s' & answer & Hrun & _ & _ & Hitems & Hid & _ & Hm & _).
  exists s', answer. split; [exact Hrun |]. split; [exact Hitems |].
  split; [exact Hid | exact Hm].
Defined.

(** X12 on the received poll of the example, whose answers carry the ids 1
    and 2, with one answer added. *)
Lemma add_answers_keep_ids_sequential_witness :
  (Poll.polls sample_store !! 1%positive = Some sample_fields /\
   Poll.backing_answers sample_fields sample_store = Some sample_answers /\
   ids_sequential sample_answers) /\
  exists s' ys,
    Poll.add_answers (H := sample_collaborators) 1%positive [("C", None)] sample_store
      = Poll.Return 1%positive s' /\
    Poll.backing_answers sample_fields s' = Some ys /\
    length ys = 3%nat /\
    ids_sequential ys.
Proof.
  assert (Hp : Poll.polls sample_store !! 1%positive = Some sample_fields)
    by (vm_compute; reflexivity).
  assert (Hxs : Poll.backing_answers sample_fields sample_store = Some sample_answers)
    by (vm_compute; reflexivity).
  assert (Hseq : ids_sequential sample_answers) by reflexivity.
  split; [split; [exact Hp | split; [exact Hxs | exact Hseq]] |].
  destruct (add_answers_keep_ids_sequential (H := sample_collaborators) sample_store
              1%positive sample_fields sample_answers [("C", None)] Hp Hxs Hseq)
    as (s' & ys & Hrun & Hback & Hlen & Hids & _).
  exists s', ys. split; [exact Hrun |]. split; [exact Hback |].
  split; [exact Hlen | exact Hids].
Defined.

(** X13 on the received poll of the example. *)
Lemma reading_changes_no_object_witness :
  (Poll.polls sample_store !! 1%positive = Some sample_fields /\
   Poll.backing_answers sample_fields sample_store = Some sample_answers /\
   forall counts, Poll._counts sample_fields = Some counts ->
     is_Some (Poll.count_lists sample_store !! counts)) /\
  (exists result s',
     Poll.get_answer 1%positive 1 sample_store = Poll.Return result s' /\
     store_extends sample_store s') /\
  (exists out s',
     Poll._to_dict (H := sample_collaborators) 1%positive sample_store
       = Poll.Return out s' /\
     store_extends sample_store s').
Proof.
  assert (Hp : Poll.polls sample_store !! 1%positive = Some sample_fields)
    by (vm_compute; reflexivity).
  assert (Hxs : Poll.backing_answers sample_fields sample_store = Some sample_answers)
    by (vm_compute; reflexivity).
  assert (Hcs : forall counts, Poll._counts sample_fields = Some counts ->
                  is_Some (Poll.count_lists sample_store !! counts)).
  { intros counts Hc. injection Hc as <-. eexists. vm_compute. reflexivity. }
  split; [split; [exact Hp | split; [exact Hxs | exact Hcs]] |].
  destruct (reading_changes_no_object (H := sample_collaborators) sample_store
              1%positive sample_fields sample_answers 1 Hp Hxs Hcs)
    as (_ & _ & Hget & Hdict & _).
  split; [exact Hget | exact Hdict].
Defined.

(** X14 on the received poll of the example. *)
Lemma to_dict_sends_five_keys_witness :
  (Poll.polls sample_store !! 1%positive = Some sample_fields /\
   Poll.backing_answers sample_fields sample_store = Some sample_answers) /\
  exists out s',
    Poll._to_dict (H := sample_collaborators) 1%positive sample_store
      = Poll.Return out s' /\
    dict_keys out
      = ["allow_multiselect"; "question"; "duration"; "layout_type"; "answers"] /\
    value_get "duration" out = Some (PyInt 1) /\
    value_get "expiry" out = None /\
    value_get "results" out = None.
Proof.
  assert (Hp : Poll.polls sample_store !! 1%positive = Some sample_fields)
    by (vm_compute; reflexivity).
  assert (Hxs : Poll.backing_answers sample_fields sample_store = Some sample_answers)
    by (vm_compute; reflexivity).
  split; [split; [exact Hp | exact Hxs] |].
  destruct (to_dict_sends_five_keys (H := sample_collaborators) sample_store
              1%positive sample_fields sample_answers Hp Hxs)
    as (out & s' & entries & Hout & Hkeys & _ & _ & Hd & _ & _ & _ & He & Hr).
  exists out, s'. split; [exact Hout |]. split; [exact Hkeys |].
  split; [exact Hd |]. split; [exact He | exact Hr].
Defined.

(** ** Two calls of an accessor, and ids that select nothing *)

Section Lookups.
Context `{Collaborators}.

(** X17. Two calls of [answers] return two different list objects, neither
    of them the list of the poll, both with the answers of the poll. *)
Theorem answers_returns_a_new_list_each_time (s : Poll.Store) (self : loc)
    (p : Poll.t) (xs : list PollAnswer.t) :
  Poll.polls s !! self = Some p ->
  Poll.backing_answers p s = Some xs ->
  exists first s1 second s2,
    Poll.answers self s = Poll.Return first s1 /\
    Poll.answers self s1 = Poll.Return second s2 /\
    first <> second /\
    first <> Poll._answers p /\
    second <> Poll._answers p /\
    Poll.answer_lists s2 !! first = Some xs /\
    Poll.answer_lists s2 !! second = Some xs /\
    Poll.answer_lists s2 !! Poll._answers p = Some xs.
Proof.
  intros Hp Hxs. unfold Poll.backing_answers in Hxs.
  rewrite (answers_spec s self p xs Hp Hxs).
  set (first := fresh (dom (Poll.answer_lists s))).
  set (s1 := Poll.put_answer_list first xs s).
  assert (Hne1 : first <> Poll._answers p) by (eapply fresh_ne_allocated; exact Hxs).
  assert (Hp1 : Poll.polls s1 !! self = Some p) by exact Hp.
  assert (Hxs1 : Poll.answer_lists s1 !! Poll._answers p = Some xs)
    by (simpl; rewrite lookup_insert_ne by exact Hne1; exact Hxs).
  assert (Hfirst : Poll.answer_lists s1 !! first = Some xs) by apply lookup_insert_eq.
  set (second := fresh (dom (Poll.answer_lists s1))).
  assert (Hne2 : second <> Poll._answers p) by (eapply fresh_ne_allocated; exact Hxs1).
  assert (Hne12 : second <> first) by (eapply fresh_ne_allocated; exact Hfirst).
  exists first, s1, second, (Poll.put_answer_list second xs s1).
  split; [reflexivity |].
  split; [apply (answers_spec s1 self p xs Hp1 Hxs1) |].
  split; [congruence |]. split; [exact Hne1 |]. split; [exact Hne2 |].
  simpl. rewrite !lookup_insert_eq.
  split; [rewrite lookup_insert_ne by exact Hne12; apply lookup_insert_eq |].
  split; [reflexivity |].
  rewrite !lookup_insert_ne by assumption. exact Hxs.
Qed.

(** X18. [get_answer] returns for every integer id, without raising; for an
    id above the number of answers, and for an id at most minus that number,
    it returns [None]. *)
Theorem get_answer_never_raises (s : Poll.Store) (self : loc) (p : Poll.t)
    (xs : list PollAnswer.t) (id : Z) :
  Poll.polls s !! self = Some p ->
  Poll.backing_answers p s = Some xs ->
  exists result s',
    Poll.get_answer self id s = Poll.Return result s' /\
    (id > len xs \/ id <= - len xs -> result = None) /\
    (forall answer, result = Some answer -> In answer xs).
Proof.
  intros Hp Hxs.
  destruct (get_answer_spec s self p xs id Hp Hxs) as (s' & Hget & _).
  exists (Poll.get_answer_result xs id), s'. split; [exact Hget |]. split.
  - apply get_answer_result_None.
  - intros answer Hresult. unfold Poll.get_answer_result in Hresult.
    destruct (id >? len xs); [discriminate |].
    destruct (list_getitem xs (id - 1)) as [e | found] eqn:Hget'; [discriminate |].
    injection Hresult as ->.
    unfold list_getitem in Hget'.
    destruct (_ || _); [discriminate |].
    destruct (xs !! _) as [x |] eqn:Hlookup; [| discriminate].
    injection Hget' as ->. apply list_elem_of_In.
    eapply list_elem_of_lookup_2. exact Hlookup.
Qed.

End Lookups.

(** X17 on the received poll of the example. *)
Lemma answers_returns_a_new_list_each_time_witness :
  (Poll.polls sample_store !! 1%positive = Some sample_fields /\
   Poll.backing_answers sample_fields sample_store = Some sample_answers) /\
  exists first s1 second s2,
    Poll.answers 1%positive sample_store = Poll.Return first s1 /\
    Poll.answers 1%positive s1 = Poll.Return second s2 /\
    first <> second /\
    Poll.answer_lists s2 !! first = Some sample_answers /\
    Poll.answer_lists s2 !! second = Some sample_answers.
Proof.
  assert (Hp : Poll.polls sample_store !! 1%positive = Some sample_fields)
    by (vm_compute; reflexivity).
  assert (Hxs : Poll.backing_answers sample_fields sample_store = Some sample_answers)
    by (vm_compute; reflexivity).
  split; [split; [exact Hp | exact Hxs] |].
  destruct (answers_returns_a_new_list_each_time sample_store 1%positive
              sample_fields sample_answers Hp Hxs)
    as (first & s1 & second & s2 & H1 & H2 & Hne & _ & _ & Hf & Hs & _).
  exists first, s1, second, s2. repeat split; assumption.
Defined.

(** X18 on the received poll of the example, whose answers are two: the ids
    3 and -2 select nothing. *)
Lemma get_answer_never_raises_witness :
  (Poll.polls sample_store !! 1%positive = Some sample_fields /\
   Poll.backing_answers sample_fields sample_store = Some sample_answers) /\
  (exists s', Poll.get_answer 1%positive 3 sample_store = Poll.Return None s') /\
  (exists s', Poll.get_answer 1%positive (-2) sample_store = Poll.Return None s').
Proof.
  assert (Hp : Poll.polls sample_store !! 1%positive = Some sample_fields)
    by (vm_compute; reflexivity).
  assert (Hxs : Poll.backing_answers sample_fields sample_store = Some sample_answers)
    by (vm_compute; reflexivity).
  split; [split; [exact Hp | exact Hxs] |]. split.
  - destruct (get_answer_never_raises sample_store 1%positive sample_fields
                sample_answers 3 Hp Hxs) as (result & s' & Hget & Hnone & _).
    exists s'. rewrite Hget, Hnone; [reflexivity | left; reflexivity].
  - destruct (get_answer_never_raises sample_store 1%positive sample_fields
                sample_answers (-2) Hp Hxs) as (result & s' & Hget & Hnone & _).
    exists s'. rewrite Hget, Hnone; [reflexivity | right; discriminate].
Defined.
